(** * Push routing of the talk channel handlers

    A shallow embedding of [src/talk/channel/talk-channel-handler.ts] and
    [src/talk/channel/talk-channel-list.ts].

    The handlers are written in a small state monad.  The collaborators of a
    handler (store, updater, emitter, parent context, session) are the
    TypeScript interfaces of the source: here they are records of methods
    acting on an abstract world [W], so that every theorem holds for every
    implementation of them.  Each method call of a handler on a collaborator
    is appended to a log together with the world the call was made in. *)

From stdpp Require Import base option list gmap strings.
From Stdlib Require Import ZArith.

Local Open Scope Z_scope.

(** ** Values *)

(** [Long] of bson: a 64-bit integer, compared by value with [equals]
  (of which [eq] is an alias). *)
Abbreviation Long := Z (only parsing).

Definition Long_equals (a b : Long) : bool := Z.eqb a b.

(** A reference to a JavaScript object. *)
Abbreviation ref := positive (only parsing).

Module Channel.
Record t := mk { channelId : Long }.
End Channel.
Abbreviation Channel := Channel.t.

Module ChannelUser.
Record t := mk { userId : Long }.
End ChannelUser.
Abbreviation ChannelUser := ChannelUser.t.

Module ChannelUserInfo.
Record t := mk { userId : Long; nickname : string }.
(** A [ChannelUserInfo] passed where a [ChannelUser] is expected. *)
Definition asUser (u : t) : ChannelUser := ChannelUser.mk (userId u).
End ChannelUserInfo.
Abbreviation ChannelUserInfo := ChannelUserInfo.t.

Module ChatlogStruct.
Record t := mk {
  logId : Long; chatId : Long; type : Z; authorId : Long; message : string
}.
End ChatlogStruct.
Abbreviation ChatlogStruct := ChatlogStruct.t.

Module Chatlog.
Record t := mk {
  logId : Long; type : Z; sender : ChannelUser; text : string
}.
End Chatlog.
Abbreviation Chatlog := Chatlog.t.

Module ChatFeeds.
Record t := mk { feedType : Z; body : string }.
End ChatFeeds.
Abbreviation ChatFeeds := ChatFeeds.t.

Module SetChannelMeta.
Record t := mk { type : Z; revision : Z; authorId : Long; content : string }.
End SetChannelMeta.
Abbreviation SetChannelMeta := SetChannelMeta.t.

(** [{ logId: ... }], the first argument of [chat_read] *)
Module ChatLogged.
Record t := mk { logId : Long }.
End ChatLogged.
Abbreviation ChatLogged := ChatLogged.t.

(** [new TalkChatData(chatLog)] *)
Module TalkChatData.
Record t := mk { chat : Chatlog }.
End TalkChatData.
Abbreviation TalkChatData := TalkChatData.t.

(** The payload of a push.  The handlers read it through the typed views
  [MsgRes], [DecunreadRes], [ChgMetaRes], [LeftRes], [SyncJoinRes] and by
  the keys ['c'] and ['chatLog']; the record has the fields of all of them. *)
Module DefaultRes.
Record t := mk {
  chatId : Long;
  c : Long;
  logId : Long;
  chatLog : ChatlogStruct;
  userId : Long;
  watermark : Long;
  meta : SetChannelMeta
}.
End DefaultRes.
Abbreviation DefaultRes := DefaultRes.t.

(** [ChannelInfo]: [metaMap] is a reference to the object that maps a meta
  type to its latest value. *)
Module ChannelInfo.
Record t := mk {
  lastChatLogId : Long;
  lastChatLog : option Chatlog;
  metaMap : ref
}.
End ChannelInfo.
Abbreviation ChannelInfo := ChannelInfo.t.

(** [Partial<ChannelInfo>]: an absent key is [None]. *)
Module PartialInfo.
Record t := mk {
  lastChatLogId : option Long;
  lastChatLog : option Chatlog;
  metaMap : option ref
}.
End PartialInfo.
Abbreviation PartialInfo := PartialInfo.t.

(** [AsyncCommandResult<T>] once settled: the [success] flag and, when it is
  set, the [result]. *)
Inductive CommandResult (A : Type) : Type :=
| Success (status : Z) (result : A)
| Failure (status : Z).
Arguments Success {A} status result.
Arguments Failure {A} status.

(** The functions and constants the handlers import from [../../chat] and
  [../../packet/struct]. *)
Class Codec := {
  structToChatlog : ChatlogStruct -> Chatlog;
  feedFromChat : Chatlog -> ChatFeeds;
  KnownChatType_FEED : Z;
  KnownFeedType_DELETE_TO_ALL : Z
}.

(** ** The monad of the handlers *)

Section runtime.
(** [W]: the world of the collaborators; [L]: the labels of their calls;
    [K]: the continuations handed to [then]; [O]: the objects the handler
    itself allocates. *)
Context {W L K O : Type}.

Record Machine := mkMachine {
  heap : gmap ref O;
  world : W;
  log : list (L * W);
  pending : list K
}.

Definition M (A : Type) : Type := Machine -> A * Machine.

#[export] Instance M_ret : MRet M := λ A a m, (a, m).
#[export] Instance M_bind : MBind M :=
  λ A B f c m, let '(a, m') := c m in f a m'.

Definition exec {A} (c : M A) (m : Machine) : Machine := (c m).2.

(** The labels of a log, without the worlds. *)
Definition calls (m : Machine) : list L := (log m).*1.

(** A property read on a collaborator. *)
Definition read {A} (f : W -> A) : M A := λ m, (f (world m), m).

(** A method call on a collaborator whose result is not used. *)
Definition invoke (c : L) (f : W -> W) : M unit :=
  λ m, (tt, mkMachine (heap m) (f (world m))
                      (log m ++ [(c, world m)]) (pending m)).

(** A method call on a collaborator that returns a value. *)
Definition call {A} (c : L) (f : W -> A * W) : M A :=
  λ m, ((f (world m)).1,
        mkMachine (heap m) (f (world m)).2
                  (log m ++ [(c, world m)]) (pending m)).

(** A new object. *)
Definition alloc (o : O) : M ref :=
  λ m, let l := fresh (dom (heap m)) in
       (l, mkMachine (<[l:=o]> (heap m)) (world m) (log m) (pending m)).

Definition load (l : ref) : M (option O) := λ m, (heap m !! l, m).

(** A write to a property of an object. *)
Definition modify (l : ref) (f : O -> O) : M unit :=
  λ m, (tt, mkMachine (alter f l (heap m)) (world m) (log m) (pending m)).

(** [promise.then(k)] *)
Definition then_ (k : K) : M unit :=
  λ m, (tt, mkMachine (heap m) (world m) (log m) (pending m ++ [k])).

(** [for (const x of xs) body] *)
Fixpoint for_of {A} (xs : list A) (body : A -> M unit) : M unit :=
  match xs with
  | [] => mret tt
  | x :: xs' => body x;; for_of xs' body
  end.
End runtime.

Arguments Machine : clear implicits.
Arguments M : clear implicits.

(** ** The interfaces of the collaborators

    A method takes the world it is called in and gives the world it leaves. *)

(** [TypedEmitter<E>]: [emit] runs the listeners of the emitter. *)
Record TypedEmitter (E W : Type) := { emit : E -> W -> W }.
Arguments emit {E W}.

(** [EventContext<E>], as the handlers use a context they are given. *)
Record EventContext (E W : Type) := { ctx_emit : E -> W -> W }.
Arguments ctx_emit {E W}.

Record ChannelDataStore (W : Type) := {
  info : W -> ChannelInfo;
  getUserInfo : ChannelUser -> W -> option ChannelUserInfo
}.
Arguments info {W}.
Arguments getUserInfo {W}.

Record ChannelDataUpdater (W : Type) := {
  updateInfo : PartialInfo -> W -> W;
  updateUserInfo : ChannelUser -> ChannelUserInfo -> W -> W;
  removeUser : ChannelUser -> W -> W;
  updateWatermark : Long -> Long -> W -> W
}.
Arguments updateInfo {W}.
Arguments updateUserInfo {W}.
Arguments removeUser {W}.
Arguments updateWatermark {W}.

(** [ChannelSession]: the call sends the request; the answer comes later, as
    the argument of the continuation given to [then]. *)
Record ChannelSession (W : Type) := {
  getLatestUserInfo : ChannelUser -> W -> W
}.
Arguments getLatestUserInfo {W}.

(** ** [TalkChannelHandler] *)

Module TalkChannelHandler.

(** [ChannelEvents<T, ChannelUserInfo>] *)
Inductive ChannelEvents : Type :=
| chat (data : TalkChatData) (channel : Channel)
| chat_read (chat : ChatLogged) (channel : Channel)
            (reader : option ChannelUserInfo)
| meta_change (channel : Channel) (type : Z) (newMeta : SetChannelMeta)
| user_left (leftLog : Chatlog) (channel : Channel) (user : ChannelUserInfo)
            (feed : ChatFeeds)
| user_join (joinLog : Chatlog) (channel : Channel) (user : ChannelUserInfo)
            (feed : ChatFeeds)
| chat_deleted (feedChatlog : Chatlog) (channel : Channel) (feed : ChatFeeds).

(** The method calls of the handler on its collaborators. *)
Inductive Call : Type :=
| EmitterEmit (event : ChannelEvents)
| ParentCtxEmit (event : ChannelEvents)
| UpdateInfo (partial : PartialInfo)
| UpdateWatermark (readerId watermark : Long)
| RemoveUser (user : ChannelUser)
| UpdateUserInfo (user : ChannelUser) (info : ChannelUserInfo)
| GetLatestUserInfo (user : ChannelUser).

(** The continuation of [_userJoinHandler], with the variables it closes
    over. *)
Inductive Then (W : Type) : Type :=
| userJoin_then (chatLog : Chatlog)
                (parentCtx : EventContext ChannelEvents W).
Arguments userJoin_then {W}.

(** The fields of the constructor. *)
Record t (W : Type) := mk {
  _channel : Channel;
  _session : ChannelSession W;
  _emitter : TypedEmitter ChannelEvents W;
  _store : ChannelDataStore W;
  _updater : ChannelDataUpdater W
}.
Arguments _channel {W}.
Arguments _session {W}.
Arguments _emitter {W}.
Arguments _store {W}.
Arguments _updater {W}.

(** The object behind [metaMap]: its keys are meta types. *)
Abbreviation MetaMap := (gmap Z SetChannelMeta).

Abbreviation State W := (Machine W Call (Then W) MetaMap).
Abbreviation Handler W := (M W Call (Then W) MetaMap).

Section methods.
Context `{Codec} {W : Type}.
Variable this : t W.

Definition _callEvent (parentCtx : EventContext ChannelEvents W)
    (event : ChannelEvents) : Handler W unit :=
  invoke (EmitterEmit event) (emit (_emitter this) event);;
  invoke (ParentCtxEmit event) (ctx_emit parentCtx event).

Definition _msgHandler (msgData : DefaultRes)
    (parentCtx : EventContext ChannelEvents W) : Handler W unit :=
  if negb (Long_equals (Channel.channelId (_channel this))
                       (DefaultRes.chatId msgData))
  then mret tt
  else
    let chatLog := structToChatlog (DefaultRes.chatLog msgData) in
    _callEvent parentCtx (chat (TalkChatData.mk chatLog) (_channel this));;
    let partial :=
      PartialInfo.mk (Some (DefaultRes.logId msgData)) (Some chatLog) None in
    invoke (UpdateInfo partial) (updateInfo (_updater this) partial).

Definition _feedHandler (data : DefaultRes)
    (parentCtx : EventContext ChannelEvents W) : Handler W unit :=
  let channelId := DefaultRes.c data in
  if negb (Long_equals (Channel.channelId (_channel this)) channelId)
  then mret tt
  else
    let chatLog := structToChatlog (DefaultRes.chatLog data) in
    _callEvent parentCtx (chat (TalkChatData.mk chatLog) (_channel this));;
    let partial :=
      PartialInfo.mk (Some (Chatlog.logId chatLog)) (Some chatLog) None in
    invoke (UpdateInfo partial) (updateInfo (_updater this) partial).

Definition _chatReadHandler (readData : DefaultRes)
    (parentCtx : EventContext ChannelEvents W) : Handler W unit :=
  if negb (Long_equals (Channel.channelId (_channel this))
                       (DefaultRes.chatId readData))
  then mret tt
  else
    reader ← read (getUserInfo (_store this)
                     (ChannelUser.mk (DefaultRes.userId readData)));
    invoke (UpdateWatermark (DefaultRes.userId readData)
                            (DefaultRes.watermark readData))
           (updateWatermark (_updater this) (DefaultRes.userId readData)
                            (DefaultRes.watermark readData));;
    _callEvent parentCtx
      (chat_read (ChatLogged.mk (DefaultRes.watermark readData))
                 (_channel this) reader).

Definition _metaChangeHandler (metaData : DefaultRes)
    (parentCtx : EventContext ChannelEvents W) : Handler W unit :=
  if negb (Long_equals (Channel.channelId (_channel this))
                       (DefaultRes.chatId metaData))
  then mret tt
  else
    let metaType := SetChannelMeta.type (DefaultRes.meta metaData) in
    let meta := DefaultRes.meta metaData in
    _callEvent parentCtx (meta_change (_channel this) metaType meta);;
    (* const metaMap = { ...this.info.metaMap }: the spread of a value
       that is no object has no property *)
    current ← read (info (_store this));
    props ← load (ChannelInfo.metaMap current);
    metaMap ← alloc (default ∅ props);
    (* metaMap[metaType] = meta *)
    modify metaMap (λ o, <[metaType := meta]> o);;
    let partial := PartialInfo.mk None None (Some metaMap) in
    invoke (UpdateInfo partial) (updateInfo (_updater this) partial).

Definition _userLeftHandler (data : DefaultRes)
    (parentCtx : EventContext ChannelEvents W) : Handler W unit :=
  let struct := DefaultRes.chatLog data in
  if negb (Long_equals (Channel.channelId (_channel this))
                       (ChatlogStruct.chatId struct))
  then mret tt
  else
    let chatLog := structToChatlog struct in
    user ← read (getUserInfo (_store this) (Chatlog.sender chatLog));
    match user with
    | None => mret tt
    | Some user =>
      invoke (RemoveUser (Chatlog.sender chatLog))
             (removeUser (_updater this) (Chatlog.sender chatLog));;
      if negb (Chatlog.type chatLog =? KnownChatType_FEED)
      then mret tt
      else
        let feed := feedFromChat chatLog in
        _callEvent parentCtx (user_left chatLog (_channel this) user feed)
    end.

(** The function given to [then] in [_userJoinHandler]. *)
Definition _userJoinHandler_then (chatLog : Chatlog)
    (parentCtx : EventContext ChannelEvents W)
    (usersRes : CommandResult (list ChannelUserInfo)) : Handler W unit :=
  match usersRes with
  | Failure _ => mret tt
  | Success _ result =>
    for_of result (λ user,
      invoke (UpdateUserInfo (ChannelUserInfo.asUser user) user)
             (updateUserInfo (_updater this)
                             (ChannelUserInfo.asUser user) user);;
      let feed := feedFromChat chatLog in
      _callEvent parentCtx (user_join chatLog (_channel this) user feed))
  end.

Definition _userJoinHandler (data : DefaultRes)
    (parentCtx : EventContext ChannelEvents W) : Handler W unit :=
  let struct := DefaultRes.chatLog data in
  if negb (Long_equals (Channel.channelId (_channel this))
                       (ChatlogStruct.chatId struct))
  then mret tt
  else
    let chatLog := structToChatlog struct in
    if negb (Chatlog.type chatLog =? KnownChatType_FEED)
    then mret tt
    else
      invoke (GetLatestUserInfo (Chatlog.sender chatLog))
             (getLatestUserInfo (_session this) (Chatlog.sender chatLog));;
      then_ (userJoin_then chatLog parentCtx).

Definition _msgDeleteHandler (data : DefaultRes)
    (parentCtx : EventContext ChannelEvents W) : Handler W unit :=
  let struct := DefaultRes.chatLog data in
  if negb (Long_equals (Channel.channelId (_channel this))
                       (ChatlogStruct.chatId struct))
  then mret tt
  else
    let chatLog := structToChatlog struct in
    if negb (Chatlog.type chatLog =? KnownChatType_FEED)
    then mret tt
    else
      let feed := feedFromChat chatLog in
      if negb (ChatFeeds.feedType feed =? KnownFeedType_DELETE_TO_ALL)
      then mret tt
      else _callEvent parentCtx (chat_deleted chatLog (_channel this) feed).

Definition pushReceived (method : string) (data : DefaultRes)
    (parentCtx : EventContext ChannelEvents W) : Handler W unit :=
  if String.eqb method "MSG" then _msgHandler data parentCtx
  else if String.eqb method "FEED" then _feedHandler data parentCtx
  else if String.eqb method "DECUNREAD" then _chatReadHandler data parentCtx
  else if String.eqb method "CHGMETA" then _metaChangeHandler data parentCtx
  else if String.eqb method "DELMEM" then _userLeftHandler data parentCtx
  else if String.eqb method "NEWMEM" then _userJoinHandler data parentCtx
  else if String.eqb method "SYNCDLMSG" then _msgDeleteHandler data parentCtx
  else mret tt.

(** A continuation whose promise has settled with [usersRes]. *)
Definition settle (k : Then W)
    (usersRes : CommandResult (list ChannelUserInfo)) : Handler W unit :=
  match k with
  | userJoin_then chatLog parentCtx =>
    _userJoinHandler_then chatLog parentCtx usersRes
  end.

End methods.
End TalkChannelHandler.

(** ** [TalkChannelListHandler] *)

(** [T extends Channel] *)
Class ExtendsChannel (T : Type) := asChannel : T -> Channel.

#[export] Instance Channel_extends_Channel : ExtendsChannel Channel := λ c, c.

(** [ChannelListStore<T>] *)
Record ChannelListStore (T W : Type) := {
  get : Long -> W -> option T
}.
Arguments get {T W}.

(** [ChannelListUpdater<T>]: [addChannel] sends the request, its answer is
    the argument of the continuation; [removeChannel] returns a boolean. *)
Record ChannelListUpdater (T W : Type) := {
  addChannel : Channel -> W -> W;
  removeChannel : Channel -> W -> bool * W
}.
Arguments addChannel {T W}.
Arguments removeChannel {T W}.

Module TalkChannelListHandler.

(** [ChannelListEvent<T>] *)
Inductive ChannelListEvent (T : Type) : Type :=
| channel_join (channel : T)
| channel_left (channel : T).
Arguments channel_join {T}.
Arguments channel_left {T}.

Inductive Call (T : Type) : Type :=
| EmitterEmit (event : ChannelListEvent T)
| ParentCtxEmit (event : ChannelListEvent T)
| AddChannel (channel : Channel)
| RemoveChannel (channel : Channel).
Arguments EmitterEmit {T}.
Arguments ParentCtxEmit {T}.
Arguments AddChannel {T}.
Arguments RemoveChannel {T}.

(** The continuation of the [SYNCJOIN] case. *)
Inductive Then (T W : Type) : Type :=
| addChannel_then (parentCtx : EventContext (ChannelListEvent T) W).
Arguments addChannel_then {T W}.

Record t (T W : Type) := mk {
  _list : ChannelListStore T W;
  _emitter : TypedEmitter (ChannelListEvent T) W;
  _updater : ChannelListUpdater T W
}.
Arguments _list {T W}.
Arguments _emitter {T W}.
Arguments _updater {T W}.

(** The list handler allocates no object. *)
Abbreviation State T W := (Machine W (Call T) (Then T W) Empty_set).
Abbreviation Handler T W := (M W (Call T) (Then T W) Empty_set).

Section methods.
Context {T : Type} `{ExtendsChannel T} {W : Type}.
Variable this : t T W.

Definition _callEvent (parentCtx : EventContext (ChannelListEvent T) W)
    (event : ChannelListEvent T) : Handler T W unit :=
  invoke (EmitterEmit event) (emit (_emitter this) event);;
  invoke (ParentCtxEmit event) (ctx_emit parentCtx event).

(** The function given to [then] in the [SYNCJOIN] case. *)
Definition pushReceived_then
    (parentCtx : EventContext (ChannelListEvent T) W)
    (res : CommandResult T) : Handler T W unit :=
  match res with
  | Failure _ => mret tt
  | Success _ result => _callEvent parentCtx (channel_join result)
  end.

Definition pushReceived (method : string) (data : DefaultRes)
    (parentCtx : EventContext (ChannelListEvent T) W) : Handler T W unit :=
  if String.eqb method "LEFT" then
    let leftData := data in
    channel ← read (get (_list this) (DefaultRes.chatId leftData));
    match channel with
    | None => mret tt
    | Some channel =>
      call (RemoveChannel (asChannel channel))
           (removeChannel (_updater this) (asChannel channel));;
      _callEvent parentCtx (channel_left channel)
    end
  else if String.eqb method "SYNCJOIN" then
    let joinData := data in
    invoke (AddChannel (Channel.mk (DefaultRes.c joinData)))
           (addChannel (_updater this) (Channel.mk (DefaultRes.c joinData)));;
    then_ (addChannel_then parentCtx)
  else mret tt.

Definition settle (k : Then T W) (res : CommandResult T) : Handler T W unit :=
  match k with
  | addChannel_then parentCtx => pushReceived_then parentCtx res
  end.

End methods.
End TalkChannelListHandler.

(** ** [TalkChannelList] *)

Module TalkChannelList.

(** Modelled from the spec: the class [EventContext] is not under src/.  A
    context node holds a local typed sink and an optional parent context;
    [new EventContext(emitter, parent)] makes one. *)
Record EventContextObj := new_EventContext {
  ctx_emitter : ref;
  ctx_parent : option ref
}.

(** [TalkNormalChannelList] and [TalkOpenChannelList], as [TalkChannelList]
    uses them; a context is passed to them by reference. *)
Record TalkNormalChannelList (W : Type) := {
  normal_size : W -> Z;
  normal_get : Long -> W -> option Channel;
  normal_pushReceived : string -> DefaultRes -> ref -> W -> W
}.
Arguments normal_size {W}.
Arguments normal_get {W}.
Arguments normal_pushReceived {W}.

Record TalkOpenChannelList (W : Type) := {
  open_size : W -> Z;
  open_get : Long -> W -> option Channel;
  open_pushReceived : string -> DefaultRes -> ref -> W -> W
}.
Arguments open_size {W}.
Arguments open_get {W}.
Arguments open_pushReceived {W}.

Inductive Call : Type :=
| NormalListPushReceived (method : string) (data : DefaultRes) (ctx : ref)
| OpenListPushReceived (method : string) (data : DefaultRes) (ctx : ref).

(** [self] is the reference of the list itself, which is the emitter of the
    contexts it makes. *)
Record t (W : Type) := mk {
  self : ref;
  _normalList : TalkNormalChannelList W;
  _openList : TalkOpenChannelList W
}.
Arguments self {W}.
Arguments _normalList {W}.
Arguments _openList {W}.

Abbreviation State W := (Machine W Call Empty_set EventContextObj).
Abbreviation Method W := (M W Call Empty_set EventContextObj).

Section methods.
Context {W : Type}.
Variable this : t W.

Definition size : Method W Z :=
  n ← read (normal_size (_normalList this));
  o ← read (open_size (_openList this));
  mret (n + o).

Definition get (channelId : Long) : Method W (option Channel) :=
  n ← read (normal_get (_normalList this) channelId);
  match n with
  | Some channel => mret (Some channel)
  | None => read (open_get (_openList this) channelId)
  end.

Definition pushReceived (method : string) (data : DefaultRes)
    (parentCtx : ref) : Method W unit :=
  ctx ← alloc (new_EventContext (self this) (Some parentCtx));
  invoke (NormalListPushReceived method data ctx)
         (normal_pushReceived (_normalList this) method data ctx);;
  invoke (OpenListPushReceived method data ctx)
         (open_pushReceived (_openList this) method data ctx).

End methods.
End TalkChannelList.

(** ** Reading a log *)

Section observations.
Context {W L K O : Type}.

(** The calls made between the machine [m] and a later machine [m']. *)
Definition new_log (m m' : Machine W L K O) : list (L * W) :=
  drop (length (log m)) (log m').

Definition new_calls (m m' : Machine W L K O) : list L :=
  (new_log m m').*1.

End observations.

Module Trace.
Import TalkChannelHandler.

(** The events given to [this._emitter.emit], in order. *)
Definition emitted (cs : list Call) : list ChannelEvents :=
  omap (λ c, match c with EmitterEmit e => Some e | _ => None end) cs.

(** The events given to [parentCtx.emit], in order. *)
Definition forwarded (cs : list Call) : list ChannelEvents :=
  omap (λ c, match c with ParentCtxEmit e => Some e | _ => None end) cs.

(** The calls on [this._updater]. *)
Definition is_update (c : Call) : bool :=
  match c with
  | UpdateInfo _ | UpdateWatermark _ _ | RemoveUser _ | UpdateUserInfo _ _ =>
    true
  | _ => false
  end.

Definition updates (cs : list Call) : list Call := filter is_update cs.

End Trace.

(** ** An implementation of the collaborators in memory

    The theorems below hold for every implementation of the interfaces.  This
    one is used to run the handlers on concrete pushes. *)

Module InMemory.
Import TalkChannelHandler.

(** Modelled from the spec: the classes implementing [ChannelDataStore] and
    [ChannelDataUpdater] are not under src/.  The store gives the current
    info and looks a user up by identifier; the updater commits a partial
    info (last write wins per key), sets the watermark of a user identifier,
    removes a user and commits a user record.  [heard] is what the listeners
    noted: the sink, the event and the info of the store at that moment. *)
Record World := mkWorld {
  channelInfo : ChannelInfo;
  userInfoMap : gmap Z ChannelUserInfo;
  watermarkMap : gmap Z Z;
  requests : list ChannelUser;
  heard : list (string * ChannelEvents * ChannelInfo)
}.

Definition store : ChannelDataStore World := {|
  info w := channelInfo w;
  getUserInfo user w := userInfoMap w !! ChannelUser.userId user
|}.

Definition merge (partial : PartialInfo) (i : ChannelInfo) : ChannelInfo :=
  ChannelInfo.mk
    (default (ChannelInfo.lastChatLogId i) (PartialInfo.lastChatLogId partial))
    (match PartialInfo.lastChatLog partial with
     | Some chatLog => Some chatLog
     | None => ChannelInfo.lastChatLog i
     end)
    (default (ChannelInfo.metaMap i) (PartialInfo.metaMap partial)).

Definition updater : ChannelDataUpdater World := {|
  updateInfo partial w :=
    mkWorld (merge partial (channelInfo w)) (userInfoMap w) (watermarkMap w)
            (requests w) (heard w);
  updateUserInfo user i w :=
    mkWorld (channelInfo w) (<[ChannelUser.userId user := i]> (userInfoMap w))
            (watermarkMap w) (requests w) (heard w);
  removeUser user w :=
    mkWorld (channelInfo w) (delete (ChannelUser.userId user) (userInfoMap w))
            (watermarkMap w) (requests w) (heard w);
  updateWatermark readerId watermark w :=
    mkWorld (channelInfo w) (userInfoMap w)
            (<[readerId := watermark]> (watermarkMap w)) (requests w) (heard w)
|}.

Definition session : ChannelSession World := {|
  getLatestUserInfo user w :=
    mkWorld (channelInfo w) (userInfoMap w) (watermarkMap w)
            (requests w ++ [user]) (heard w)
|}.

(** A listener that notes the event and the info the store holds. *)
Definition listen (sink : string) (event : ChannelEvents) (w : World) : World :=
  mkWorld (channelInfo w) (userInfoMap w) (watermarkMap w) (requests w)
          (heard w ++ [(sink, event, channelInfo w)]).

Definition emitter : TypedEmitter ChannelEvents World :=
  {| emit := listen "channel" |}.

Definition clientCtx : EventContext ChannelEvents World :=
  {| ctx_emit := listen "client" |}.

(** A codec for the examples: the feed type of a log is the length of its
    text. *)
Definition codec : Codec := {|
  structToChatlog s :=
    Chatlog.mk (ChatlogStruct.logId s) (ChatlogStruct.type s)
               (ChannelUser.mk (ChatlogStruct.authorId s))
               (ChatlogStruct.message s);
  feedFromChat chatLog :=
    ChatFeeds.mk (Z.of_nat (String.length (Chatlog.text chatLog)))
                 (Chatlog.text chatLog);
  KnownChatType_FEED := 0;
  KnownFeedType_DELETE_TO_ALL := 14
|}.

(** The handler of channel 7. *)
Definition handler : TalkChannelHandler.t World :=
  TalkChannelHandler.mk World (Channel.mk 7) session emitter store updater.

Definition alice : ChannelUserInfo := ChannelUserInfo.mk 11 "alice".
Definition bob : ChannelUserInfo := ChannelUserInfo.mk 12 "bob".

Definition notice : SetChannelMeta := SetChannelMeta.mk 1 3 11 "notice".
Definition title : SetChannelMeta := SetChannelMeta.mk 3 1 11 "title".
Definition title' : SetChannelMeta := SetChannelMeta.mk 3 2 12 "new title".

(** The store holds log 100, user [alice], and the meta map at reference 1. *)
Definition world0 : World :=
  mkWorld (ChannelInfo.mk 100 None 1) {[ 11 := alice ]} ∅ [] [].

Definition machine0 : TalkChannelHandler.State World :=
  mkMachine {[ 1%positive := {[ 1 := notice; 3 := title ]} ]} world0 [] [].

(** A feed log of channel 7 sent by [author], of feed type [length text]. *)
Definition feedLog (author : Long) (text : string) : ChatlogStruct :=
  ChatlogStruct.mk 5 7 0 author text.

Definition push (chatId : Long) (chatLog : ChatlogStruct) (userId : Long)
    (meta : SetChannelMeta) : DefaultRes :=
  DefaultRes.mk chatId chatId 5 chatLog userId 42 meta.

(** A push for channel 7 and one for channel 8. *)
Definition push7 : DefaultRes := push 7 (feedLog 11 "delete to all!") 99 title'.
Definition push8 : DefaultRes :=
  push 8 (ChatlogStruct.mk 5 8 0 11 "delete to all!") 99 title'.

Definition pushOfLeave : DefaultRes := push 7 (feedLog 11 "ab") 99 title'.

(** A push for channel 7 whose log is a text message (type 1) of [alice]. *)
Definition pushOfText : DefaultRes :=
  push 7 (ChatlogStruct.mk 5 7 1 11 "delete to all!") 99 title'.

End InMemory.

Module InMemoryList.
Import TalkChannelListHandler.

(** Modelled from the spec: the classes implementing [ChannelListStore] and
    [ChannelListUpdater] are not under src/.  The store looks a conversation
    up by identifier; the updater removes a conversation and reports whether
    it was there. *)
Record World := mkWorld {
  channelMap : gmap Z Channel;
  joinRequests : list Channel;
  heard : list (string * ChannelListEvent Channel)
}.

Definition store : ChannelListStore Channel World := {|
  get channelId w := channelMap w !! channelId
|}.

Definition updater : ChannelListUpdater Channel World := {|
  addChannel channel w :=
    mkWorld (channelMap w) (joinRequests w ++ [channel]) (heard w);
  removeChannel channel w :=
    (bool_decide (is_Some (channelMap w !! Channel.channelId channel)),
     mkWorld (delete (Channel.channelId channel) (channelMap w))
             (joinRequests w) (heard w))
|}.

(** An updater that removes nothing and reports [false]. *)
Definition refusing : ChannelListUpdater Channel World := {|
  addChannel channel w := w;
  removeChannel channel w := (false, w)
|}.

Definition listen (sink : string) (event : ChannelListEvent Channel)
    (w : World) : World :=
  mkWorld (channelMap w) (joinRequests w) (heard w ++ [(sink, event)]).

Definition emitter : TypedEmitter (ChannelListEvent Channel) World :=
  {| emit := listen "list" |}.

Definition clientCtx : EventContext (ChannelListEvent Channel) World :=
  {| ctx_emit := listen "client" |}.

Definition handler : TalkChannelListHandler.t Channel World :=
  TalkChannelListHandler.mk Channel World store emitter updater.

Definition stubborn : TalkChannelListHandler.t Channel World :=
  TalkChannelListHandler.mk Channel World store emitter refusing.

Definition world0 : World := mkWorld {[ 7 := Channel.mk 7 ]} [] [].

Definition machine0 : TalkChannelListHandler.State Channel World :=
  mkMachine ∅ world0 [] [].

End InMemoryList.

Module InMemoryRegistry.
Import TalkChannelList.

(** The sub-lists note the pushes they receive, with the context. *)
Record World := mkWorld {
  normalSeen : list (string * DefaultRes * ref);
  openSeen : list (string * DefaultRes * ref)
}.

Definition normalList : TalkNormalChannelList World := {|
  normal_size w := 0;
  normal_get channelId w := None;
  normal_pushReceived method data ctx w :=
    mkWorld (normalSeen w ++ [(method, data, ctx)]) (openSeen w)
|}.

Definition openList : TalkOpenChannelList World := {|
  open_size w := 0;
  open_get channelId w := None;
  open_pushReceived method data ctx w :=
    mkWorld (normalSeen w) (openSeen w ++ [(method, data, ctx)])
|}.

(** The client is object 10 and the list object 11; the context of the
    client, which has no parent, is object 2. *)
Definition channelList : TalkChannelList.t World :=
  TalkChannelList.mk World 11%positive normalList openList.

Definition machine0 : TalkChannelList.State World :=
  mkMachine {[ 2%positive := new_EventContext 10%positive None ]}
            (mkWorld [] []) [] [].

End InMemoryRegistry.

Module ListTrace.
Import TalkChannelListHandler.

(** The events the list handler gives to [this._emitter.emit]. *)
Definition emitted {T} (cs : list (Call T)) : list (ChannelListEvent T) :=
  omap (λ c, match c with EmitterEmit e => Some e | _ => None end) cs.

(** The events the list handler gives to [parentCtx.emit]. *)
Definition forwarded {T} (cs : list (Call T)) : list (ChannelListEvent T) :=
  omap (λ c, match c with ParentCtxEmit e => Some e | _ => None end) cs.

End ListTrace.

(** ** [TalkChannelList.initialize] *)

Module TalkChannelListInitialize.

(** An element of the list given to [initialize], a [Channel] or an
    [OpenChannel]: the key [linkId] is present in an [OpenChannel] only. *)
Record Entry := mkEntry {
  channelId : Long;
  linkId : option Long
}.

(** ['linkId' in channel] *)
Definition has_linkId (channel : Entry) : bool :=
  match linkId channel with
  | Some _ => true
  | None => false
  end.

(** The static methods [TalkNormalChannelList.initialize] and
    [TalkOpenChannelList.initialize]: the call starts the initialization of
    the sub-list, which settles later. *)
Record Statics (W : Type) := {
  normal_initialize : list Entry -> W -> W;
  open_initialize : list Entry -> W -> W
}.
Arguments normal_initialize {W}.
Arguments open_initialize {W}.

(** How an awaited promise settles. *)
Inductive Settled : Type :=
| Fulfilled
| Rejected.

(** The calls of [initialize], and how the promise it returns settles:
    [Return] when the function returns the list, [Throw] when an awaited
    promise is rejected. *)
Inductive Call : Type :=
| NormalInitialize (normalList : list Entry)
| OpenInitialize (openList : list Entry)
| Return
| Throw.

(** The rest of the function after each [await], with the variables it
    still uses. *)
Inductive Then : Type :=
| await_normal (openList : list Entry)
| await_open.

Abbreviation State W := (Machine W Call Then Empty_set).
Abbreviation Async W := (M W Call Then Empty_set).

Section methods.
Context {W : Type}.
Variable statics : Statics W.

(** The two arrays after [channelList.forEach(...)]: [push] appends. *)
Definition partition (channelList : list Entry) : list Entry * list Entry :=
  foldl (λ '(normalList, openList) channel,
           if has_linkId channel
           then (normalList, openList ++ [channel])
           else (normalList ++ [channel], openList))
        ([], []) channelList.

(** The promise of the function settles: no collaborator is called. *)
Definition conclude (c : Call) : Async W unit := invoke c (λ w, w).

(** [initialize] up to its first [await]; an absent [channelList] is [[]]. *)
Definition initialize (channelList : option (list Entry)) : Async W unit :=
  let channelList := default [] channelList in
  let '(normalList, openList) := partition channelList in
  invoke (NormalInitialize normalList) (normal_initialize statics normalList);;
  then_ (await_normal openList).

(** [initialize] from an [await] on, once the awaited promise has settled. *)
Definition settle (k : Then) (s : Settled) : Async W unit :=
  match k, s with
  | await_normal openList, Fulfilled =>
    invoke (OpenInitialize openList) (open_initialize statics openList);;
    then_ await_open
  | await_open, Fulfilled => conclude Return
  | _, Rejected => conclude Throw
  end.

End methods.
End TalkChannelListInitialize.

(** ** More readings of a log *)

Module Observe.
Import TalkChannelHandler.

(** The channel argument of an event. *)
Definition event_channel (event : ChannelEvents) : Channel :=
  match event with
  | chat _ channel => channel
  | chat_read _ channel _ => channel
  | meta_change channel _ _ => channel
  | user_left _ channel _ _ => channel
  | user_join _ channel _ _ => channel
  | chat_deleted _ channel _ => channel
  end.

(** The calls on [this._session]. *)
Definition is_request (c : Call) : bool :=
  match c with
  | GetLatestUserInfo _ => true
  | _ => false
  end.

(** What a logged call does to the world: the method of the collaborator the
    label names, with the arguments of the label. *)
Definition effect {W : Type} (this : TalkChannelHandler.t W)
    (parentCtx : EventContext ChannelEvents W) (c : Call) (w : W) : W :=
  match c with
  | EmitterEmit event => emit (_emitter this) event w
  | ParentCtxEmit event => ctx_emit parentCtx event w
  | UpdateInfo partial => updateInfo (_updater this) partial w
  | UpdateWatermark readerId watermark =>
    updateWatermark (_updater this) readerId watermark w
  | RemoveUser user => removeUser (_updater this) user w
  | UpdateUserInfo user i => updateUserInfo (_updater this) user i w
  | GetLatestUserInfo user => getLatestUserInfo (_session this) user w
  end.

(** The log of the calls [cs] made one after the other from the world [w]:
    each call with the world the calls before it left. *)
Fixpoint replay {W : Type} (this : TalkChannelHandler.t W)
    (parentCtx : EventContext ChannelEvents W) (cs : list Call) (w : W)
    : list (Call * W) :=
  match cs with
  | [] => []
  | c :: cs' => (c, w) :: replay this parentCtx cs' (effect this parentCtx c w)
  end.

(** What the logged calls of one push to the handler of [channel] look like
    (the log has the calls on the updater, the emitter, the parent context
    and the session; a read of the store is no entry of it): the parent
    context is given the events the emitter is given, they are events of
    [channel], and there are at most three logged calls, one update and one
    event. *)
Definition well_formed_calls (channel : Channel) (cs : list Call) : Prop :=
  Trace.emitted cs = Trace.forwarded cs
  ∧ Forall (λ e, event_channel e = channel) (Trace.emitted cs)
  ∧ (length cs ≤ 3)%nat
  ∧ (length (Trace.updates cs) ≤ 1)%nat
  ∧ (length (Trace.emitted cs) ≤ 1)%nat.

(** The tags [TalkChannelHandler.pushReceived] has a case for. *)
Definition channel_tags : list string :=
  ["MSG"; "FEED"; "DECUNREAD"; "CHGMETA"; "DELMEM"; "NEWMEM"; "SYNCDLMSG"].

(** The tags [TalkChannelListHandler.pushReceived] has a case for. *)
Definition list_tags : list string := ["LEFT"; "SYNCJOIN"].

End Observe.

(** ** More concrete inputs *)

Module Samples.
Import InMemory.

(** A second meta change for channel 7: a new notice. *)
Definition notice' : SetChannelMeta := SetChannelMeta.mk 1 4 12 "new notice".
Definition push7' : DefaultRes :=
  push 7 (feedLog 11 "delete to all!") 99 notice'.

(** A push whose key [c] is 7 and whose [chatId] is 8. *)
Definition feedPush : DefaultRes :=
  DefaultRes.mk 8 7 1000 (feedLog 11 "hello") 99 42 title'.

(** A world that notes which lists the sub-lists are initialized with. *)
Record InitWorld := mkInitWorld {
  normalInit : option (list TalkChannelListInitialize.Entry);
  openInit : option (list TalkChannelListInitialize.Entry)
}.

Definition statics : TalkChannelListInitialize.Statics InitWorld := {|
  TalkChannelListInitialize.normal_initialize l w :=
    mkInitWorld (Some l) (openInit w);
  TalkChannelListInitialize.open_initialize l w :=
    mkInitWorld (normalInit w) (Some l)
|}.

Definition entries : list TalkChannelListInitialize.Entry :=
  [TalkChannelListInitialize.mkEntry 1 None;
   TalkChannelListInitialize.mkEntry 2 (Some 20);
   TalkChannelListInitialize.mkEntry 3 None;
   TalkChannelListInitialize.mkEntry 4 (Some 40)].

Definition initMachine : TalkChannelListInitialize.State InitWorld :=
  mkMachine ∅ (mkInitWorld None None) [] [].

(** A normal list that holds channel 7 and an open list that holds
    channel 8. *)
Definition twoLists : TalkChannelList.t InMemoryRegistry.World :=
  TalkChannelList.mk InMemoryRegistry.World 11%positive
    {| TalkChannelList.normal_size w := 1;
       TalkChannelList.normal_get channelId w :=
         if channelId =? 7 then Some (Channel.mk 7) else None;
       TalkChannelList.normal_pushReceived method data ctx w := w |}
    {| TalkChannelList.open_size w := 1;
       TalkChannelList.open_get channelId w :=
         if channelId =? 8 then Some (Channel.mk 8) else None;
       TalkChannelList.open_pushReceived method data ctx w := w |}.

End Samples.

(** * Properties *)

Section log_facts.
Context {W L K O : Type}.
Implicit Types m : Machine W L K O.

Lemma new_log_app m m' seg : log m' = log m ++ seg -> new_log m m' = seg.
Proof. intros E. unfold new_log. rewrite E. apply drop_app_length. Qed.

Lemma new_calls_app m m' seg :
  log m' = log m ++ seg -> new_calls m m' = seg.*1.
Proof. intros E. unfold new_calls. by rewrite (new_log_app _ _ _ E). Qed.

Lemma new_log_same m : new_log m m = [].
Proof. apply new_log_app. by rewrite app_nil_r. Qed.

Lemma for_of_cons {A} (x : A) xs (body : A -> M W L K O unit) m :
  exec (for_of (x :: xs) body) m = exec (for_of xs body) (exec (body x) m).
Proof.
  unfold exec. cbn [for_of]. unfold mbind, M_bind.
  by destruct (body x m).
Qed.

End log_facts.

Section handler_runs.
Import TalkChannelHandler.
Context `{Codec} {W : Type}.
Variable this : t W.
Implicit Types (m : State W) (parentCtx : EventContext ChannelEvents W).

(** [_callEvent] fires the emitter of the handler, then the parent context. *)
Lemma callEvent_run parentCtx event m :
  _callEvent this parentCtx event m =
  (tt, mkMachine (heap m)
         (ctx_emit parentCtx event (emit (_emitter this) event (world m)))
         (log m ++ [(EmitterEmit event, world m);
                    (ParentCtxEmit event,
                     emit (_emitter this) event (world m))])
         (pending m)).
Proof.
  unfold _callEvent, invoke, mbind, M_bind. cbn. by rewrite <- app_assoc.
Qed.

(** C3: a [MSG] push for this channel emits [chat] once on the emitter and
    once on the parent context, with the decoded log, and then calls
    [updateInfo] with the pushed log id and the decoded log, whatever the
    store holds; a [MSG] push for another channel leaves the machine as it
    is: no call, no emission. *)
Theorem msg_push_emits_then_commits (msgData : DefaultRes) parentCtx m :
  let chatLog := structToChatlog (DefaultRes.chatLog msgData) in
  let event := chat (TalkChatData.mk chatLog) (_channel this) in
  let partial :=
    PartialInfo.mk (Some (DefaultRes.logId msgData)) (Some chatLog) None in
  let m' := exec (pushReceived this "MSG" msgData parentCtx) m in
  if Long_equals (Channel.channelId (_channel this))
                 (DefaultRes.chatId msgData)
  then
    new_calls m m' =
      [EmitterEmit event; ParentCtxEmit event; UpdateInfo partial]
    ∧ world m' =
        updateInfo (_updater this) partial
          (ctx_emit parentCtx event (emit (_emitter this) event (world m)))
    ∧ heap m' = heap m ∧ pending m' = pending m
  else m' = m.
Proof.
  intros chatLog event partial m'. subst m'.
  unfold exec, pushReceived. cbn [String.eqb Ascii.eqb Bool.eqb].
  unfold _msgHandler.
  destruct (Long_equals _ _); cbn [negb]; [|done].
  unfold mbind, M_bind. rewrite callEvent_run. cbn.
  split_and!; try done.
  erewrite new_calls_app; [|cbn; by rewrite <- app_assoc]. done.
Qed.

(** C5: a [DECUNREAD] push for this channel calls [updateWatermark] with the
    pushed user id and watermark in the world of the push, and only then
    emits [chat_read], on the emitter and on the parent context; the reader
    of the event is what the store gave for the user id before the update,
    and when the store gave nothing the same calls are made with an absent
    reader.  The handler returns normally. *)
Theorem chat_read_commits_then_emits (readData : DefaultRes) parentCtx m
    (reader : option ChannelUserInfo) :
  Long_equals (Channel.channelId (_channel this))
              (DefaultRes.chatId readData) = true ->
  getUserInfo (_store this) (ChannelUser.mk (DefaultRes.userId readData))
              (world m) = reader ->
  let userId := DefaultRes.userId readData in
  let watermark := DefaultRes.watermark readData in
  let event := chat_read (ChatLogged.mk watermark) (_channel this) reader in
  let w1 := updateWatermark (_updater this) userId watermark (world m) in
  let w2 := emit (_emitter this) event w1 in
  ∃ m', pushReceived this "DECUNREAD" readData parentCtx m = (tt, m')
    ∧ new_log m m' =
        [(UpdateWatermark userId watermark, world m);
         (EmitterEmit event, w1); (ParentCtxEmit event, w2)]
    ∧ world m' = ctx_emit parentCtx event w2
    ∧ (reader = None ->
       Trace.updates (new_calls m m') = [UpdateWatermark userId watermark]
       ∧ Trace.emitted (new_calls m m') =
           [chat_read (ChatLogged.mk watermark) (_channel this) None]).
Proof.
  intros Hid Hreader userId watermark event w1 w2.
  unfold pushReceived. cbn [String.eqb Ascii.eqb Bool.eqb].
  unfold _chatReadHandler. rewrite Hid. cbn [negb].
  unfold mbind, M_bind, read. rewrite Hreader. cbn.
  rewrite callEvent_run. cbn. eexists. split; [reflexivity|].
  assert (Hlog : ∀ m' : State W,
    log m' = log m ++ [(UpdateWatermark userId watermark, world m);
                       (EmitterEmit event, w1); (ParentCtxEmit event, w2)] ->
    new_log m m' = [(UpdateWatermark userId watermark, world m);
                    (EmitterEmit event, w1); (ParentCtxEmit event, w2)])
    by (intros; by apply new_log_app).
  split_and!.
  - apply Hlog. cbn. by rewrite <- app_assoc.
  - done.
  - intros ->. unfold new_calls. rewrite Hlog; [done|].
    cbn. by rewrite <- app_assoc.
Qed.

(** What [_metaChangeHandler] does for a push of this channel, step by step:
    the two emissions, the copy of the map the store holds after them, the
    write of the pushed meta in the copy, the call of [updateInfo]. *)
Lemma metaChange_run (metaData : DefaultRes) parentCtx m :
  Long_equals (Channel.channelId (_channel this))
              (DefaultRes.chatId metaData) = true ->
  let meta := DefaultRes.meta metaData in
  let metaType := SetChannelMeta.type meta in
  let event := meta_change (_channel this) metaType meta in
  let w1 := emit (_emitter this) event (world m) in
  let w2 := ctx_emit parentCtx event w1 in
  let old := ChannelInfo.metaMap (info (_store this) w2) in
  let new := fresh (dom (heap m)) in
  let partial := PartialInfo.mk None None (Some new) in
  pushReceived this "CHGMETA" metaData parentCtx m =
  (tt, mkMachine
         (<[new := <[metaType := meta]> (default ∅ (heap m !! old))]> (heap m))
         (updateInfo (_updater this) partial w2)
         (log m ++ [(EmitterEmit event, world m); (ParentCtxEmit event, w1);
                    (UpdateInfo partial, w2)])
         (pending m)).
Proof.
  intros Hid meta metaType event w1 w2 old new partial.
  unfold pushReceived. cbn [String.eqb Ascii.eqb Bool.eqb].
  unfold _metaChangeHandler. rewrite Hid. cbn [negb].
  unfold mbind, M_bind. rewrite callEvent_run.
  unfold read, load, alloc, modify, invoke. cbn.
  fold meta metaType event w1 w2 old new.
  f_equal. f_equal.
  - apply map_eq. intros l. rewrite lookup_alter.
    destruct (decide (new = l)) as [<-|Hne].
    + by rewrite !lookup_insert_eq.
    + by rewrite !lookup_insert_ne.
  - by rewrite <- app_assoc.
Qed.


(** C2: a [CHGMETA] push for this channel emits [meta_change] on the emitter
    in the world of the push, then on the parent context in the world the
    listeners of the emitter left, and calls [updateInfo] after both; the map
    it commits is not allocated in the heap the emissions start from, so the
    listeners read the map committed before. *)
Theorem meta_change_emits_before_commit (metaData : DefaultRes) parentCtx m :
  let meta := DefaultRes.meta metaData in
  let metaType := SetChannelMeta.type meta in
  let event := meta_change (_channel this) metaType meta in
  let w1 := emit (_emitter this) event (world m) in
  let w2 := ctx_emit parentCtx event w1 in
  let m' := exec (pushReceived this "CHGMETA" metaData parentCtx) m in
  Long_equals (Channel.channelId (_channel this))
              (DefaultRes.chatId metaData) = true ->
  ∃ new : ref,
    new_log m m' =
      [(EmitterEmit event, world m); (ParentCtxEmit event, w1);
       (UpdateInfo (PartialInfo.mk None None (Some new)), w2)]
    ∧ heap m !! new = None
    ∧ (∀ l, is_Some (heap m !! l) -> l ≠ new)
    ∧ world m' =
        updateInfo (_updater this) (PartialInfo.mk None None (Some new)) w2.
Proof.
  intros meta metaType event w1 w2 m' Hid. subst m'.
  unfold exec. rewrite (metaChange_run _ _ _ Hid). cbn [snd].
  fold meta metaType event w1 w2.
  set (new := fresh (dom (heap m))).
  assert (Hfresh : heap m !! new = None)
    by (apply not_elem_of_dom, is_fresh).
  exists new. split_and!.
  - by apply new_log_app.
  - done.
  - intros l [o Hl] ->. congruence.
  - done.
Qed.


(** C6: a [SYNCDLMSG] push calls no method of the updater and changes no
    object, whatever it carries.  For a push of this channel whose decoded
    log is a feed of feed type delete-to-all, [chat_deleted] is emitted once
    on the emitter, in the world of the push, and once on the parent context,
    in the world the listeners of the emitter left, and the handler leaves
    the world the listeners of the parent context left: nothing else has
    acted on it.  For any other log type or feed type, and for a push of
    another channel, the machine is left as it is: nothing is emitted and no
    state is touched. *)
Theorem msg_delete_emits_for_delete_to_all_only (data : DefaultRes)
    parentCtx m :
  let struct := DefaultRes.chatLog data in
  let chatLog := structToChatlog struct in
  let feed := feedFromChat chatLog in
  let event := chat_deleted chatLog (_channel this) feed in
  let deleteToAll :=
    Chatlog.type chatLog = KnownChatType_FEED
    ∧ ChatFeeds.feedType feed = KnownFeedType_DELETE_TO_ALL in
  let w1 := emit (_emitter this) event (world m) in
  let m' := exec (pushReceived this "SYNCDLMSG" data parentCtx) m in
  (Trace.updates (new_calls m m') = []
   ∧ heap m' = heap m ∧ pending m' = pending m)
  ∧ (Long_equals (Channel.channelId (_channel this))
                 (ChatlogStruct.chatId struct) = true ->
     (deleteToAll ->
      new_calls m m' = [EmitterEmit event; ParentCtxEmit event]
      ∧ new_log m m' = [(EmitterEmit event, world m); (ParentCtxEmit event, w1)]
      ∧ world m' = ctx_emit parentCtx event w1)
     ∧ (¬ deleteToAll -> m' = m)
     ∧ (Trace.emitted (new_calls m m') = [event] ↔ deleteToAll))
  ∧ (Long_equals (Channel.channelId (_channel this))
                 (ChatlogStruct.chatId struct) = false -> m' = m).
Proof.
  intros struct chatLog feed event deleteToAll w1 m'. subst m' deleteToAll.
  unfold exec, pushReceived. cbn [String.eqb Ascii.eqb Bool.eqb].
  unfold _msgDeleteHandler. fold struct.
  destruct (Long_equals _ _); cbn [negb];
    [|unfold new_calls; rewrite new_log_same; by split_and!].
  fold chatLog.
  destruct (Z.eqb_spec (Chatlog.type chatLog) KnownChatType_FEED) as [Ht|Ht];
    cbn [negb].
  2:{ unfold new_calls; rewrite new_log_same.
      split; [done|]. split; [|done]. intros _.
      split_and!; [tauto|done|split; [done|tauto]]. }
  fold feed.
  destruct (Z.eqb_spec (ChatFeeds.feedType feed) KnownFeedType_DELETE_TO_ALL)
    as [Hf|Hf]; cbn [negb].
  2:{ unfold new_calls; rewrite new_log_same.
      split; [done|]. split; [|done]. intros _.
      split_and!; [tauto|done|split; [done|tauto]]. }
  fold event. rewrite callEvent_run. cbn [snd]. fold w1.
  assert (Hlog : new_log m
            (mkMachine (heap m) (ctx_emit parentCtx event w1)
               (log m ++ [(EmitterEmit event, world m);
                          (ParentCtxEmit event, w1)]) (pending m))
          = [(EmitterEmit event, world m); (ParentCtxEmit event, w1)])
    by (by apply new_log_app).
  unfold new_calls. rewrite Hlog.
  split; [done|]. split; [|done]. intros _.
  split_and!; [done|tauto|done].
Qed.

(** The calls of the loop of [_userJoinHandler_then]: for each user, in the
    order of the list, [updateUserInfo] and then the two emissions. *)
Lemma userJoin_loop_calls (chatLog : Chatlog) parentCtx (status : Z)
    (users : list ChannelUserInfo) m :
  let event user :=
    user_join chatLog (_channel this) user (feedFromChat chatLog) in
  let m' :=
    exec (_userJoinHandler_then this chatLog parentCtx
            (Success status users)) m in
  (∃ seg, log m' = log m ++ seg
     ∧ seg.*1 =
       users ≫= (λ user,
         [UpdateUserInfo (ChannelUserInfo.asUser user) user;
          EmitterEmit (event user); ParentCtxEmit (event user)]))
  ∧ world m' =
      foldl (λ w user,
               ctx_emit parentCtx (event user)
                 (emit (_emitter this) (event user)
                    (updateUserInfo (_updater this)
                       (ChannelUserInfo.asUser user) user w)))
            (world m) users
  ∧ heap m' = heap m ∧ pending m' = pending m.
Proof.
  intros event m'. subst m'. unfold _userJoinHandler_then.
  revert m. induction users as [|user users' IH]; intros m.
  - split; [|done]. exists []. by rewrite app_nil_r.
  - rewrite for_of_cons.
    match goal with |- context [exec (for_of users' _) ?m1] =>
      destruct (IH m1) as [(seg & Hlog & Hseg) (Hworld & Hheap & Hpend)];
      assert (Hstep : m1 =
        mkMachine (heap m)
          (ctx_emit parentCtx (event user)
             (emit (_emitter this) (event user)
                (updateUserInfo (_updater this)
                   (ChannelUserInfo.asUser user) user (world m))))
          (log m ++
           [(UpdateUserInfo (ChannelUserInfo.asUser user) user, world m);
            (EmitterEmit (event user),
             updateUserInfo (_updater this)
               (ChannelUserInfo.asUser user) user (world m));
            (ParentCtxEmit (event user),
             emit (_emitter this) (event user)
               (updateUserInfo (_updater this)
                  (ChannelUserInfo.asUser user) user (world m)))])
          (pending m))
        by (unfold exec, mbind, M_bind, invoke; rewrite callEvent_run;
            cbn; by rewrite <- app_assoc)
    end.
    rewrite Hstep in Hlog, Hworld, Hheap, Hpend |- *.
    cbn in Hlog, Hworld, Hheap, Hpend.
    split; [|done].
    eexists (_ :: _ :: _ :: seg). split.
    + rewrite Hlog. by rewrite <- !app_assoc.
    + cbn. by rewrite Hseg.
Qed.

(** C4: a [NEWMEM] push for this channel with a feed log sends the request
    for the profiles of the sender and registers one continuation, without
    any emission or update.  When the request settles with success and the
    users [users], the continuation calls, user after user, [updateUserInfo]
    and then emits [user_join] for that user on the emitter and on the
    parent context: one emission per user on each, heard in the world in
    which that user is committed.  When the request settles with a failure,
    the continuation leaves the machine as it is. *)
Theorem user_join_emits_once_per_user (data : DefaultRes) parentCtx m :
  let struct := DefaultRes.chatLog data in
  let chatLog := structToChatlog struct in
  let sender := Chatlog.sender chatLog in
  let event user :=
    user_join chatLog (_channel this) user (feedFromChat chatLog) in
  let m' := exec (pushReceived this "NEWMEM" data parentCtx) m in
  Long_equals (Channel.channelId (_channel this))
              (ChatlogStruct.chatId struct) = true ->
  Chatlog.type chatLog = KnownChatType_FEED ->
  new_calls m m' = [GetLatestUserInfo sender]
  ∧ pending m' = pending m ++ [userJoin_then chatLog parentCtx]
  ∧ ∀ (usersRes : CommandResult (list ChannelUserInfo)) (m1 : State W),
      let m2 :=
        exec (settle this (userJoin_then chatLog parentCtx) usersRes) m1 in
      match usersRes with
      | Success _ users =>
        new_calls m1 m2 =
          users ≫= (λ user,
            [UpdateUserInfo (ChannelUserInfo.asUser user) user;
             EmitterEmit (event user); ParentCtxEmit (event user)])
        ∧ Trace.emitted (new_calls m1 m2) = event <$> users
        ∧ Trace.forwarded (new_calls m1 m2) = event <$> users
        ∧ length (Trace.emitted (new_calls m1 m2)) = length users
        ∧ length (Trace.updates (new_calls m1 m2)) = length users
        ∧ world m2 =
            foldl (λ w user,
                     ctx_emit parentCtx (event user)
                       (emit (_emitter this) (event user)
                          (updateUserInfo (_updater this)
                             (ChannelUserInfo.asUser user) user w)))
                  (world m1) users
      | Failure _ => m2 = m1
      end.
Proof.
  intros struct chatLog sender event m' Hid Hfeed. subst m'.
  split_and!.
  - unfold exec, pushReceived. cbn [String.eqb Ascii.eqb Bool.eqb].
    unfold _userJoinHandler. fold struct. rewrite Hid. cbn [negb].
    fold chatLog. rewrite Hfeed, Z.eqb_refl. cbn [negb].
    erewrite new_calls_app; [|reflexivity]. done.
  - unfold exec, pushReceived. cbn [String.eqb Ascii.eqb Bool.eqb].
    unfold _userJoinHandler. fold struct. rewrite Hid. cbn [negb].
    fold chatLog. rewrite Hfeed, Z.eqb_refl. done.
  - intros [status users|status] m1 m2; [|done]. subst m2. cbn [settle].
    destruct (userJoin_loop_calls chatLog parentCtx status users m1)
      as [(seg & Hlog & Hseg) (Hworld & _)].
    rewrite (new_calls_app _ _ _ Hlog), Hseg. clear Hlog Hseg.
    fold event. fold event in Hworld.
    split_and!; [done|..|exact Hworld]; clear Hworld.
    + induction users as [|u us IHu]; [done|].
      rewrite bind_cons. unfold Trace.emitted in *.
      by rewrite omap_app, IHu.
    + induction users as [|u us IHu]; [done|].
      rewrite bind_cons. unfold Trace.forwarded in *.
      by rewrite omap_app, IHu.
    + induction users as [|u us IHu]; [done|].
      rewrite bind_cons. unfold Trace.emitted in *.
      rewrite omap_app, length_app, IHu. done.
    + induction users as [|u us IHu]; [done|].
      rewrite bind_cons. unfold Trace.updates in *.
      rewrite filter_app, length_app, IHu. done.
Qed.

End handler_runs.

Section list_handler_runs.
Import TalkChannelListHandler.
Context {T : Type} `{ExtendsChannel T} {W : Type}.
Variable this : t T W.
Implicit Types (m : State T W)
  (parentCtx : EventContext (ChannelListEvent T) W).

(** What the [LEFT] case does when the list store knows the pushed id. *)
Lemma left_run (data : DefaultRes) parentCtx m (channel : T) :
  get (_list this) (DefaultRes.chatId data) (world m) = Some channel ->
  let removal := removeChannel (_updater this) (asChannel channel) (world m) in
  let event := channel_left channel in
  exec (pushReceived this "LEFT" data parentCtx) m =
  mkMachine (heap m)
    (ctx_emit parentCtx event (emit (_emitter this) event removal.2))
    (log m ++ [(RemoveChannel (asChannel channel), world m);
               (EmitterEmit event, removal.2);
               (ParentCtxEmit event, emit (_emitter this) event removal.2)])
    (pending m).
Proof.
  intros Hget removal event.
  unfold exec, pushReceived. cbn [String.eqb Ascii.eqb Bool.eqb].
  unfold mbind, M_bind, read. rewrite Hget.
  unfold call, _callEvent, invoke, mbind, M_bind. cbn.
  by rewrite <- !app_assoc.
Qed.


(** C10: when the list store knows the id of a [LEFT] push, [channel_left]
    is emitted once on the emitter and once on the parent context whatever
    boolean [removeChannel] returns; only the world [removeChannel] leaves is
    passed on. *)
Theorem left_push_ignores_removal_result (data : DefaultRes) parentCtx m
    (channel : T) (removed : bool) :
  let m' := exec (pushReceived this "LEFT" data parentCtx) m in
  let removal := removeChannel (_updater this) (asChannel channel) (world m) in
  get (_list this) (DefaultRes.chatId data) (world m) = Some channel ->
  removal.1 = removed ->
  ListTrace.emitted (new_calls m m') = [channel_left channel]
  ∧ ListTrace.forwarded (new_calls m m') = [channel_left channel]
  ∧ world m' =
      ctx_emit parentCtx (channel_left channel)
        (emit (_emitter this) (channel_left channel) removal.2).
Proof.
  intros m' removal Hget _. subst m'.
  rewrite (left_run _ _ _ _ Hget).
  unfold new_calls. erewrite new_log_app; [|reflexivity]. done.
Qed.

End list_handler_runs.

Section channel_list_runs.
Import TalkChannelList.
Context {W : Type}.
Variable this : t W.
Implicit Types m : State W.

(** C9: [pushReceived] of the channel list allocates one context object,
    whose emitter is the list and whose parent is the given context, and
    gives the method and the payload it received, with the reference of that
    one context, first to the normal list and then to the open list. *)
Theorem list_push_shares_one_child_context (method : string)
    (data : DefaultRes) (parentCtx : ref) m :
  let ctx := fresh (dom (heap m)) in
  let w1 := normal_pushReceived (_normalList this) method data ctx (world m) in
  let m' := exec (pushReceived this method data parentCtx) m in
  heap m !! ctx = None
  ∧ heap m' = <[ctx := new_EventContext (self this) (Some parentCtx)]> (heap m)
  ∧ base.size (heap m') = S (base.size (heap m))
  ∧ new_log m m' =
      [(NormalListPushReceived method data ctx, world m);
       (OpenListPushReceived method data ctx, w1)]
  ∧ world m' = open_pushReceived (_openList this) method data ctx w1.
Proof.
  intros ctx w1 m'. subst m'.
  assert (Hfresh : heap m !! ctx = None)
    by (apply not_elem_of_dom, is_fresh).
  unfold exec, pushReceived, mbind, M_bind, alloc, invoke. cbn.
  fold ctx. fold w1. split_and!; try done.
  - by apply map_size_insert_None.
  - apply new_log_app. cbn. by rewrite <- app_assoc.
Qed.

End channel_list_runs.

(** * The handlers on concrete pushes *)

Section in_memory.
Import TalkChannelHandler InMemory.
#[local] Existing Instance codec.


(** The meta change of [push7]: both listeners run before [updateInfo]. *)
Lemma meta_change_emits_before_commit_witness :
  let m' := exec (pushReceived handler "CHGMETA" push7 clientCtx) machine0 in
  let event := meta_change (Channel.mk 7) 3 title' in
  Long_equals 7 (DefaultRes.chatId push7) = true
  ∧ ∃ new : ref,
      new_log machine0 m' =
        [(EmitterEmit event, world0);
         (ParentCtxEmit event, listen "channel" event world0);
         (UpdateInfo (PartialInfo.mk None None (Some new)),
          listen "client" event (listen "channel" event world0))]
      ∧ heap machine0 !! new = None
      ∧ (∀ l, is_Some (heap machine0 !! l) -> l ≠ new)
      ∧ world m' =
          updateInfo updater (PartialInfo.mk None None (Some new))
            (listen "client" event (listen "channel" event world0)).
Proof.
  intros m' event. split; [reflexivity|].
  exact (meta_change_emits_before_commit (H:=codec) handler push7 clientCtx machine0
           eq_refl).
Defined.

(** The read receipt of [push7] is of user 99, whom the store does not
    know: the watermark is set and [chat_read] has no reader. *)
Lemma chat_read_commits_then_emits_witness :
  Long_equals 7 (DefaultRes.chatId push7) = true
  ∧ getUserInfo store (ChannelUser.mk 99) world0 = None
  ∧ ∃ m', pushReceived handler "DECUNREAD" push7 clientCtx machine0 = (tt, m')
      ∧ Trace.updates (new_calls machine0 m') = [UpdateWatermark 99 42]
      ∧ Trace.emitted (new_calls machine0 m') =
          [chat_read (ChatLogged.mk 42) (Channel.mk 7) None].
Proof.
  split; [reflexivity|]. split; [reflexivity|].
  destruct (chat_read_commits_then_emits (H:=codec) handler push7 clientCtx machine0
              None eq_refl eq_refl) as (m' & Hrun & _ & _ & Hnone).
  exists m'. split; [exact Hrun|]. exact (Hnone eq_refl).
Defined.


(** The log of [push7] is a feed of feed type 14: both listeners hear of
    the deletion and the info of the store is what it was. *)
Lemma msg_delete_emits_for_delete_to_all_only_witness :
  let m' := exec (pushReceived handler "SYNCDLMSG" push7 clientCtx) machine0 in
  let chatLog := Chatlog.mk 5 0 (ChannelUser.mk 11) "delete to all!" in
  let event :=
    chat_deleted chatLog (Channel.mk 7) (ChatFeeds.mk 14 "delete to all!") in
  Long_equals 7 (ChatlogStruct.chatId (DefaultRes.chatLog push7)) = true
  ∧ (new_calls machine0 m' = [EmitterEmit event; ParentCtxEmit event]
     ∧ new_log machine0 m' =
         [(EmitterEmit event, world0);
          (ParentCtxEmit event, listen "channel" event world0)]
     ∧ world m' = listen "client" event (listen "channel" event world0))
  ∧ Trace.updates (new_calls machine0 m') = []
  ∧ exec (pushReceived handler "SYNCDLMSG" pushOfLeave clientCtx) machine0
    = machine0
  ∧ exec (pushReceived handler "SYNCDLMSG" push8 clientCtx) machine0
    = machine0.
Proof.
  intros m' chatLog event. split; [reflexivity|].
  destruct (msg_delete_emits_for_delete_to_all_only (H:=codec) handler push7
              clientCtx machine0) as [(Hupd & _) [Hmatch _]].
  destruct (Hmatch eq_refl) as (Hemit & _).
  destruct (msg_delete_emits_for_delete_to_all_only (H:=codec) handler
              pushOfLeave clientCtx machine0) as [_ [Hleave _]].
  destruct (Hleave eq_refl) as (_ & Hother & _).
  destruct (msg_delete_emits_for_delete_to_all_only (H:=codec) handler push8
              clientCtx machine0) as [_ [_ Helsewhere]].
  split; [exact (Hemit (conj eq_refl eq_refl))|].
  split; [exact Hupd|]. split; [|exact (Helsewhere eq_refl)].
  apply Hother. intros [_ Hfeed]. discriminate Hfeed.
Defined.

(** The join of [push7], settled with two users and settled with a
    failure. *)
Lemma user_join_emits_once_per_user_witness :
  let m' := exec (pushReceived handler "NEWMEM" push7 clientCtx) machine0 in
  let chatLog := Chatlog.mk 5 0 (ChannelUser.mk 11) "delete to all!" in
  let event user :=
    user_join chatLog (Channel.mk 7) user
              (ChatFeeds.mk 14 "delete to all!") in
  let k := userJoin_then chatLog clientCtx in
  Long_equals 7 (ChatlogStruct.chatId (DefaultRes.chatLog push7)) = true
  ∧ Chatlog.type chatLog = 0
  ∧ new_calls machine0 m' = [GetLatestUserInfo (ChannelUser.mk 11)]
  ∧ pending m' = [k]
  ∧ new_calls m' (exec (settle handler k (Success 0 [alice; bob])) m') =
      [UpdateUserInfo (ChannelUser.mk 11) alice;
       EmitterEmit (event alice); ParentCtxEmit (event alice);
       UpdateUserInfo (ChannelUser.mk 12) bob;
       EmitterEmit (event bob); ParentCtxEmit (event bob)]
  ∧ exec (settle handler k (Failure (-500))) m' = m'.
Proof.
  intros m' chatLog event k. split; [reflexivity|]. split; [reflexivity|].
  destruct (user_join_emits_once_per_user (H:=codec) handler push7 clientCtx machine0
              eq_refl (eq_refl 0)) as (Hcalls & Hpending & Hsettle).
  split; [exact Hcalls|]. split; [exact Hpending|]. split.
  - exact (proj1 (Hsettle (Success 0 [alice; bob]) m')).
  - exact (Hsettle (Failure (-500)) m').
Defined.

(** The message of [push7], for channel 7, and that of [push8], for
    channel 8, on the handler of channel 7. *)
Lemma msg_push_emits_then_commits_witness :
  let chatLog := Chatlog.mk 5 0 (ChannelUser.mk 11) "delete to all!" in
  let event := chat (TalkChatData.mk chatLog) (Channel.mk 7) in
  let partial := PartialInfo.mk (Some 5) (Some chatLog) None in
  let m' := exec (pushReceived handler "MSG" push7 clientCtx) machine0 in
  (new_calls machine0 m' =
     [EmitterEmit event; ParentCtxEmit event; UpdateInfo partial]
   ∧ world m' =
       updateInfo updater partial
         (listen "client" event (listen "channel" event world0))
   ∧ heap m' = heap machine0 ∧ pending m' = pending machine0)
  ∧ exec (pushReceived handler "MSG" push8 clientCtx) machine0 = machine0.
Proof.
  intros chatLog event partial m'. split.
  - exact (msg_push_emits_then_commits (H:=codec) handler push7 clientCtx
             machine0).
  - exact (msg_push_emits_then_commits (H:=codec) handler push8 clientCtx
             machine0).
Defined.

(** The store holds log 100; the pushed log 5 replaces it all the same. *)
Example msg_push_overwrites_a_later_log :
  let m' := exec (pushReceived handler "MSG" push7 clientCtx) machine0 in
  ChannelInfo.lastChatLogId (channelInfo world0) = 100
  ∧ ChannelInfo.lastChatLogId (channelInfo (world m')) = 5.
Proof. by vm_compute. Qed.

(** The listeners of a meta change find the map 1 in the store; the store
    holds the map 2 when the handler returns, and the map 1 still has the
    old title. *)
Example meta_change_listeners_see_the_old_map :
  let m' := exec (pushReceived handler "CHGMETA" push7 clientCtx) machine0 in
  (λ h, (h.1.1, ChannelInfo.metaMap h.2)) <$> heard (world m') =
    [("channel", 1%positive); ("client", 1%positive)]
  ∧ ChannelInfo.metaMap (channelInfo (world m')) = 2%positive
  ∧ heap m' !! 1%positive = Some {[ 1 := notice; 3 := title ]}
  ∧ heap m' !! 2%positive = Some {[ 1 := notice; 3 := title' ]}.
Proof. by vm_compute. Qed.

(** A feed of another feed type under [SYNCDLMSG] changes nothing. *)
Example msg_delete_of_another_feed_type :
  exec (pushReceived handler "SYNCDLMSG" pushOfLeave clientCtx) machine0
  = machine0.
Proof. reflexivity. Qed.

(** A [DELMEM] push whose log is no feed removes the user without any
    emission. *)
Example user_left_with_a_text_log :
  let m' := exec (pushReceived handler "DELMEM" pushOfText clientCtx)
                 machine0 in
  calls m' = [RemoveUser (ChannelUser.mk 11)]
  ∧ userInfoMap (world m') !! 11 = None.
Proof. by vm_compute. Qed.

(** A tag the handler does not know changes nothing. *)
Example unknown_tag_is_ignored :
  exec (pushReceived handler "LEFT" push7 clientCtx) machine0 = machine0.
Proof. reflexivity. Qed.

(** The join of [push7] settled with [alice] and [bob]: both are in the
    store afterwards and each listener has heard of each join. *)
Example user_join_commits_every_user :
  let m' := exec (pushReceived handler "NEWMEM" push7 clientCtx) machine0 in
  let m2 :=
    exec (for_of (pending m') (λ k, settle handler k (Success 0 [alice; bob])))
         m' in
  userInfoMap (world m2) !! 11 = Some alice
  ∧ userInfoMap (world m2) !! 12 = Some bob
  ∧ (λ h, h.1.1) <$> heard (world m2) =
      ["channel"; "client"; "channel"; "client"].
Proof. by vm_compute. Qed.

End in_memory.

Section in_memory_list.
Import TalkChannelListHandler InMemoryList.

(** The updater reports [false] and removes nothing: [channel_left] is
    emitted all the same. *)
Lemma left_push_ignores_removal_result_witness :
  let m' := exec (pushReceived stubborn "LEFT" InMemory.push7 clientCtx)
                 machine0 in
  get store 7 world0 = Some (Channel.mk 7)
  ∧ (removeChannel refusing (Channel.mk 7) world0).1 = false
  ∧ ListTrace.emitted (new_calls machine0 m') = [channel_left (Channel.mk 7)]
  ∧ ListTrace.forwarded (new_calls machine0 m') =
      [channel_left (Channel.mk 7)]
  ∧ channelMap (world m') !! 7 = Some (Channel.mk 7).
Proof.
  intros m'. split; [reflexivity|]. split; [reflexivity|].
  destruct (left_push_ignores_removal_result stubborn InMemory.push7
              clientCtx machine0 (Channel.mk 7) false eq_refl eq_refl)
    as (Hemit & Hfwd & Hworld).
  split; [exact Hemit|]. split; [exact Hfwd|].
  unfold m'. rewrite Hworld. reflexivity.
Defined.


(** The conversation is gone from the list when the listeners hear of it. *)
Example left_push_on_a_known_channel :
  let m' := exec (pushReceived handler "LEFT" InMemory.push7 clientCtx)
                 machine0 in
  channelMap (world m') !! 7 = None
  ∧ heard (world m') =
      [("list", channel_left (Channel.mk 7));
       ("client", channel_left (Channel.mk 7))].
Proof. by vm_compute. Qed.

End in_memory_list.

Section in_memory_registry.
Import TalkChannelList InMemoryRegistry.

(** The one context made for the push is object 3; both sub-lists note
    it. *)
Lemma list_push_shares_one_child_context_witness :
  let ctx := fresh (dom (heap machine0)) in
  let m' := exec (pushReceived channelList "MSG" InMemory.push7 2%positive)
                 machine0 in
  ctx = 3%positive
  ∧ heap machine0 !! ctx = None
  ∧ heap m' =
      <[ctx := new_EventContext 11%positive (Some 2%positive)]> (heap machine0)
  ∧ base.size (heap m') = S (base.size (heap machine0))
  ∧ new_log machine0 m' =
      [(NormalListPushReceived "MSG" InMemory.push7 ctx, mkWorld [] []);
       (OpenListPushReceived "MSG" InMemory.push7 ctx,
        mkWorld [("MSG", InMemory.push7, ctx)] [])]
  ∧ world m' =
      mkWorld [("MSG", InMemory.push7, ctx)] [("MSG", InMemory.push7, ctx)].
Proof.
  intros ctx m'. split; [by vm_compute|].
  exact (list_push_shares_one_child_context channelList "MSG" InMemory.push7
           2%positive machine0).
Defined.

End in_memory_registry.

Section more_log_facts.
Context {W L K O : Type}.
Implicit Types m : Machine W L K O.

(** The new calls of a machine given with its log. *)
Lemma new_calls_mk m h w seg p :
  new_calls m (mkMachine h w (log m ++ seg) p) = seg.*1.
Proof. by apply new_calls_app. Qed.

End more_log_facts.

(** * Further properties of [TalkChannelHandler] *)

Section handler_invariants.
Import TalkChannelHandler.
Context `{Codec} {W : Type}.
Variable this : t W.
Implicit Types (m : State W) (parentCtx : EventContext ChannelEvents W).

Ltac step_handler :=
  unfold _callEvent; unfold mbind, M_bind, invoke, read, then_; cbn;
  repeat (case_match; cbn).

Ltac check_calls :=
  repeat split; cbn; try done; try lia; try (repeat constructor; done).

Ltac close_shape :=
  first
    [ exists [], []; rewrite !app_nil_r;
      split_and!; [done|done|left; done|check_calls|cbn; lia|done]
    | eexists _, [];
      split_and!; [rewrite <- ?app_assoc; reflexivity
                  |rewrite app_nil_r; done|left; done
                  |check_calls|cbn; lia|done] ].

Lemma push_shape (method : string) (data : DefaultRes) parentCtx m :
  let m' := exec (pushReceived this method data parentCtx) m in
  ∃ seg pd,
    log m' = log m ++ seg
    ∧ pending m' = pending m ++ pd
    ∧ (heap m' = heap m
       ∨ ∃ o, heap m' = <[fresh (dom (heap m)) := o]> (heap m))
    ∧ Observe.well_formed_calls (_channel this) seg.*1
    ∧ (length pd ≤ 1)%nat
    ∧ (method ≠ "NEWMEM" -> pd = [] ∧ filter Observe.is_request seg.*1 = []).
Proof.
  intros m'. subst m'. unfold exec, pushReceived.
  destruct (String.eqb_spec method "MSG") as [->|_].
  { unfold _msgHandler. step_handler; close_shape. }
  destruct (String.eqb_spec method "FEED") as [->|_].
  { unfold _feedHandler. step_handler; close_shape. }
  destruct (String.eqb_spec method "DECUNREAD") as [->|_].
  { unfold _chatReadHandler. step_handler; close_shape. }
  destruct (String.eqb_spec method "CHGMETA") as [->|_].
  { unfold _metaChangeHandler. step_handler; [close_shape|].
    unfold load, alloc, modify, mbind, M_bind. cbn.
    eexists _, [].
    split_and!; [rewrite <- ?app_assoc; reflexivity|rewrite app_nil_r; done|
                |check_calls|cbn; lia|done].
    right. eexists. apply map_eq. intros l. rewrite lookup_alter.
    destruct (decide (fresh (dom (heap m)) = l)) as [<-|Hne].
    - rewrite !lookup_insert_eq. reflexivity.
    - by rewrite !lookup_insert_ne. }
  destruct (String.eqb_spec method "DELMEM") as [->|_].
  { unfold _userLeftHandler. step_handler; close_shape. }
  destruct (String.eqb_spec method "NEWMEM") as [->|Hnew].
  { unfold _userJoinHandler. step_handler; try close_shape.
    eexists _, [_].
    split_and!; [reflexivity|reflexivity|left; done|check_calls|cbn; lia
                |done]. }
  destruct (String.eqb_spec method "SYNCDLMSG") as [->|_].
  { unfold _msgDeleteHandler. step_handler; close_shape. }
  close_shape.
Qed.

(** The run of a continuation of [_userJoinHandler]. *)
Lemma settle_shape (k : Then W)
    (usersRes : CommandResult (list ChannelUserInfo)) m :
  let m' := exec (settle this k usersRes) m in
  ∃ seg,
    log m' = log m ++ seg
    ∧ pending m' = pending m
    ∧ heap m' = heap m
    ∧ seg.*1 =
        match k, usersRes with
        | userJoin_then chatLog _, Success _ users =>
          users ≫= (λ user,
            let event :=
              user_join chatLog (_channel this) user (feedFromChat chatLog) in
            [UpdateUserInfo (ChannelUserInfo.asUser user) user;
             EmitterEmit event; ParentCtxEmit event])
        | _, Failure _ => []
        end.
Proof.
  intros m'. subst m'. destruct k as [chatLog parentCtx].
  destruct usersRes as [status users|status]; cbn [settle].
  - destruct (userJoin_loop_calls this chatLog parentCtx status users m)
      as [(seg & Hlog & Hseg) (_ & Hheap & Hpend)].
    exists seg. by split_and!.
  - exists []. by rewrite app_nil_r.
Qed.

(** X1: a [FEED] push is handled as the [MSG] push of the same log whose
    [chatId] is the key [c] of the [FEED] push and whose [logId] is the id of
    the decoded log; the fields [chatId] and [logId] of a [FEED] push are not
    read. *)
Theorem feed_push_is_msg_push_keyed_on_c (data : DefaultRes) parentCtx m :
  let chatLog := structToChatlog (DefaultRes.chatLog data) in
  let msgData :=
    DefaultRes.mk (DefaultRes.c data) (DefaultRes.c data)
      (Chatlog.logId chatLog) (DefaultRes.chatLog data)
      (DefaultRes.userId data) (DefaultRes.watermark data)
      (DefaultRes.meta data) in
  pushReceived this "FEED" data parentCtx m
  = pushReceived this "MSG" msgData parentCtx m
  ∧ ∀ chatId logId : Long,
      pushReceived this "FEED"
        (DefaultRes.mk chatId (DefaultRes.c data) logId
           (DefaultRes.chatLog data) (DefaultRes.userId data)
           (DefaultRes.watermark data) (DefaultRes.meta data)) parentCtx m
      = pushReceived this "FEED" data parentCtx m.
Proof. by split. Qed.

(** X2: a push whose tag is none of the seven tags of the handler leaves the
    machine as it is. *)
Theorem unknown_tag_leaves_the_machine (method : string) (data : DefaultRes)
    parentCtx m :
  method ∉ Observe.channel_tags ->
  exec (pushReceived this method data parentCtx) m = m.
Proof.
  intros Hnot. unfold exec, pushReceived.
  repeat match goal with
  | |- context [String.eqb method ?tag] =>
    destruct (String.eqb_spec method tag) as [->|_];
      [exfalso; apply Hnot; unfold Observe.channel_tags; set_solver|]
  end.
  done.
Qed.

(** X3: whatever its tag, a push none of whose conversation ids ([chatId],
    [c], and the [chatId] of the log) is the id of the channel of the handler
    leaves the machine as it is. *)
Theorem push_for_another_channel_is_dropped (method : string)
    (data : DefaultRes) parentCtx m :
  let channelId := Channel.channelId (_channel this) in
  DefaultRes.chatId data ≠ channelId ->
  DefaultRes.c data ≠ channelId ->
  ChatlogStruct.chatId (DefaultRes.chatLog data) ≠ channelId ->
  exec (pushReceived this method data parentCtx) m = m.
Proof.
  intros channelId H1 H2 H3.
  assert (E : ∀ x, x ≠ channelId -> Long_equals channelId x = false)
    by (intros x Hx; apply Z.eqb_neq; congruence).
  unfold exec, pushReceived, _msgHandler, _feedHandler, _chatReadHandler,
    _metaChangeHandler, _userLeftHandler, _userJoinHandler, _msgDeleteHandler.
  fold channelId. rewrite (E _ H1), (E _ H2), (E _ H3). cbn [negb].
  repeat match goal with
  | |- context [String.eqb method ?tag] => destruct (String.eqb method tag)
  end; done.
Qed.

(** X4: no push and no continuation changes or removes an object of the
    heap: the map objects are only ever copied. *)
Theorem objects_are_never_changed (l : ref) (o : MetaMap) m :
  heap m !! l = Some o ->
  (∀ method data parentCtx,
     heap (exec (pushReceived this method data parentCtx) m) !! l = Some o)
  ∧ (∀ k usersRes, heap (exec (settle this k usersRes) m) !! l = Some o).
Proof.
  intros Hl. split.
  - intros method data parentCtx.
    destruct (push_shape method data parentCtx m)
      as (seg & pd & _ & _ & [-> | [o' ->]] & _); [done|].
    rewrite lookup_insert_ne; [done|].
    intros <-. pose proof (is_fresh (dom (heap m))) as Hfresh.
    apply Hfresh, elem_of_dom. by eexists.
  - intros k usersRes.
    destruct (settle_shape k usersRes m) as (seg & _ & _ & -> & _). done.
Qed.

(** X5: every event given to the emitter is given to the parent context as
    well, in the same order, and carries the channel of the handler; this
    holds for the calls of every push and of every continuation. *)
Theorem events_are_forwarded_and_of_this_channel m :
  (∀ method data parentCtx,
     let cs := new_calls m (exec (pushReceived this method data parentCtx) m) in
     Trace.forwarded cs = Trace.emitted cs
     ∧ Forall (λ e, Observe.event_channel e = _channel this)
              (Trace.emitted cs))
  ∧ (∀ k usersRes,
     let cs := new_calls m (exec (settle this k usersRes) m) in
     Trace.forwarded cs = Trace.emitted cs
     ∧ Forall (λ e, Observe.event_channel e = _channel this)
              (Trace.emitted cs)).
Proof.
  split.
  - intros method data parentCtx cs. subst cs.
    destruct (push_shape method data parentCtx m)
      as (seg & pd & Hlog & _ & _ & (Hfwd & Hch & _) & _).
    rewrite (new_calls_app _ _ _ Hlog). done.
  - intros k usersRes cs. subst cs.
    destruct (settle_shape k usersRes m) as (seg & Hlog & _ & _ & Hseg).
    rewrite (new_calls_app _ _ _ Hlog), Hseg.
    destruct k as [chatLog parentCtx].
    destruct usersRes as [status users|status]; [|by split].
    clear Hlog Hseg seg.
    induction users as [|u us IH]; [by split|]. destruct IH as [IH1 IH2].
    rewrite bind_cons. unfold Trace.forwarded, Trace.emitted in *.
    rewrite !omap_app. cbn [omap app]. rewrite IH1. split; [done|].
    by constructor.
Qed.

(** The log of a push is the log of its calls made one after the other from
    the world of the push, and the world the push leaves is the world those
    calls leave. *)
Lemma push_replay (method : string) (data : DefaultRes) parentCtx m :
  let m' := exec (pushReceived this method data parentCtx) m in
  ∃ seg,
    log m' = log m ++ seg
    ∧ seg = Observe.replay this parentCtx seg.*1 (world m)
    ∧ world m' =
        foldl (λ w c, Observe.effect this parentCtx c w) (world m) seg.*1
    ∧ (length (filter Observe.is_request seg.*1) ≤ 1)%nat.
Proof.
  intros m'. subst m'. unfold exec, pushReceived.
  assert (Hnil : ∀ m0 : State W, ∃ seg : list (Call * W),
    log m0 = log m0 ++ seg
    ∧ seg = Observe.replay this parentCtx seg.*1 (world m0)
    ∧ world m0 =
        foldl (λ w c, Observe.effect this parentCtx c w) (world m0) seg.*1
    ∧ (length (filter Observe.is_request seg.*1) ≤ 1)%nat).
  { intros m0. exists []. rewrite app_nil_r. split_and!; [done..|cbn; lia]. }
  repeat match goal with
  | |- context [String.eqb method ?tag] =>
    destruct (String.eqb_spec method tag) as [->|_]
  end;
    unfold _msgHandler, _feedHandler, _chatReadHandler, _metaChangeHandler,
      _userLeftHandler, _userJoinHandler, _msgDeleteHandler, _callEvent;
    unfold mbind, M_bind, mret, M_ret, invoke, read, then_, load, alloc,
      modify; cbn;
    repeat (case_match; cbn); try apply Hnil;
    (eexists; split; [rewrite <- ?app_assoc; reflexivity|];
     split_and!; [done|done|vm_compute; lia]).
Qed.

(** X6: of the calls that act on the world (on the updater, the emitter, the
    parent context and the session; a read of the store is not one), a push
    makes at most one call of the updater, gives at most one event to the
    emitter and to the parent context, and sends at most one request to the
    session; it registers at most one continuation; the log of the push is
    the log of these calls made one after the other from the world of the
    push, and the world the push leaves is the world they leave, so nothing
    else has acted on it; a push of any tag but [NEWMEM] registers no
    continuation and sends no request. *)
Theorem a_push_does_bounded_work (method : string) (data : DefaultRes)
    parentCtx m :
  let m' := exec (pushReceived this method data parentCtx) m in
  let cs := new_calls m m' in
  (length (Trace.updates cs) ≤ 1
   ∧ length (Trace.emitted cs) ≤ 1
   ∧ length (Trace.forwarded cs) ≤ 1
   ∧ length (filter Observe.is_request cs) ≤ 1
   ∧ length (pending m') ≤ S (length (pending m)))%nat
  ∧ new_log m m' = Observe.replay this parentCtx cs (world m)
  ∧ world m' = foldl (λ w c, Observe.effect this parentCtx c w) (world m) cs
  ∧ (method ≠ "NEWMEM" ->
     pending m' = pending m ∧ filter Observe.is_request cs = []).
Proof.
  intros m' cs. subst cs m'.
  destruct (push_shape method data parentCtx m)
    as (seg & pd & Hlog & Hpend & _ & (Hfwd & _ & _ & H1 & He) & Hpd & Hnew).
  destruct (push_replay method data parentCtx m)
    as (seg' & Hlog' & Hreplay & Hworld & Hreq).
  assert (seg' = seg) as ->
    by (rewrite Hlog in Hlog'; by apply app_inv_head in Hlog').
  unfold new_calls. rewrite (new_log_app _ _ _ Hlog), Hpend.
  split_and!; try done.
  - by rewrite <- Hfwd.
  - rewrite length_app. lia.
  - intros Hne. destruct (Hnew Hne) as [-> ->]. by rewrite app_nil_r.
Qed.

(** X7: a [NEWMEM] push whose log is not a feed leaves the machine as it is:
    no request is sent and no continuation is registered. *)
Theorem join_push_needs_a_feed_log (data : DefaultRes) parentCtx m :
  Chatlog.type (structToChatlog (DefaultRes.chatLog data))
    ≠ KnownChatType_FEED ->
  exec (pushReceived this "NEWMEM" data parentCtx) m = m.
Proof.
  intros Hfeed. unfold exec, pushReceived.
  cbn [String.eqb Ascii.eqb Bool.eqb]. unfold _userJoinHandler.
  destruct (Long_equals _ _); cbn [negb]; [|done].
  by destruct (Z.eqb_spec (Chatlog.type (structToChatlog
                 (DefaultRes.chatLog data))) KnownChatType_FEED).
Qed.

(** A loop over two lists, one after the other. *)
Lemma for_of_app {A} (xs ys : list A) (body : A -> Handler W unit) m :
  exec (for_of (xs ++ ys) body) m =
  exec (for_of ys body) (exec (for_of xs body) m).
Proof.
  revert m. induction xs as [|x xs IH]; intros m; [done|].
  cbn [app]. by rewrite !for_of_cons, IH.
Qed.

(** X8: a continuation settled with the users [users1 ++ users2] does what
    it does settled with [users1] and then settled with [users2], whatever
    the status codes; settled with no user, it leaves the machine as it
    is. *)
Theorem settle_splits_over_the_users (k : Then W) (status status1 status2 : Z)
    (users1 users2 : list ChannelUserInfo) m :
  exec (settle this k (Success status (users1 ++ users2))) m =
  exec (settle this k (Success status2 users2))
       (exec (settle this k (Success status1 users1)) m)
  ∧ exec (settle this k (Success status [])) m = m.
Proof.
  destruct k as [chatLog parentCtx]. cbn [settle]. split; [|done].
  unfold _userJoinHandler_then. apply for_of_app.
Qed.

(** X9: the calls of a [MSG], [FEED], [NEWMEM] or [SYNCDLMSG] push, and the
    calls of a continuation, are the same from any two machines: the store
    is not consulted, so a message is committed without a look at the log
    the store holds and a joining user is committed whether or not the
    store knows the user or still has the sender. *)
Theorem calls_do_not_depend_on_the_store (method : string)
    (data : DefaultRes) parentCtx (m1 m2 : State W) :
  method ∈ ["MSG"; "FEED"; "NEWMEM"; "SYNCDLMSG"] ->
  new_calls m1 (exec (pushReceived this method data parentCtx) m1)
  = new_calls m2 (exec (pushReceived this method data parentCtx) m2)
  ∧ ∀ k usersRes,
      new_calls m1 (exec (settle this k usersRes) m1)
      = new_calls m2 (exec (settle this k usersRes) m2).
Proof.
  intros Hin. split.
  - assert (Hmk : ∀ (m : State W) h w seg p,
      new_calls m (mkMachine h w (log m ++ seg) p) = seg.*1)
      by (intros; by apply new_calls_app).
    unfold exec, pushReceived.
    repeat (apply elem_of_cons in Hin as [->|Hin]);
      [..|by apply elem_of_nil in Hin];
      cbn [String.eqb Ascii.eqb Bool.eqb];
      unfold _msgHandler, _feedHandler, _userJoinHandler, _msgDeleteHandler,
        _callEvent, mbind, M_bind, mret, M_ret, invoke, then_;
      repeat (case_match; cbn [negb]); cbn;
      rewrite <- ?app_assoc, ?Hmk; try done;
      unfold new_calls; by rewrite !new_log_same.
  - intros k usersRes.
    destruct (settle_shape k usersRes m1) as (seg1 & Hlog1 & _ & _ & Hseg1).
    destruct (settle_shape k usersRes m2) as (seg2 & Hlog2 & _ & _ & Hseg2).
    by rewrite (new_calls_app _ _ _ Hlog1), (new_calls_app _ _ _ Hlog2),
      Hseg1, Hseg2.
Qed.

(** X10: two meta changes one after the other, when [updateInfo] makes the
    store hold the map it is given and the listeners leave the info of the
    store alone: each change commits a new map, the second map is the first
    with the second meta written over it, and the map held before the
    changes and the map of the first change stay what they were. *)
Theorem meta_changes_accumulate (data1 data2 : DefaultRes)
    parentCtx m (oldMap : MetaMap) :
  let info_of w := info (_store this) w in
  let meta1 := DefaultRes.meta data1 in
  let meta2 := DefaultRes.meta data2 in
  let m1 := exec (pushReceived this "CHGMETA" data1 parentCtx) m in
  let m2 := exec (pushReceived this "CHGMETA" data2 parentCtx) m1 in
  let held := ChannelInfo.metaMap (info_of (world m)) in
  let held1 := ChannelInfo.metaMap (info_of (world m1)) in
  let held2 := ChannelInfo.metaMap (info_of (world m2)) in
  (∀ l w, ChannelInfo.metaMap
            (info_of (updateInfo (_updater this)
                        (PartialInfo.mk None None (Some l)) w)) = l) ->
  (∀ e w, info_of (emit (_emitter this) e w) = info_of w) ->
  (∀ e w, info_of (ctx_emit parentCtx e w) = info_of w) ->
  Long_equals (Channel.channelId (_channel this))
              (DefaultRes.chatId data1) = true ->
  Long_equals (Channel.channelId (_channel this))
              (DefaultRes.chatId data2) = true ->
  heap m !! held = Some oldMap ->
  heap m2 !! held2 =
    Some (<[SetChannelMeta.type meta2 := meta2]>
            (<[SetChannelMeta.type meta1 := meta1]> oldMap))
  ∧ heap m2 !! held1 = Some (<[SetChannelMeta.type meta1 := meta1]> oldMap)
  ∧ heap m2 !! held = Some oldMap
  ∧ held ≠ held1 ∧ held1 ≠ held2 ∧ held ≠ held2.
Proof.
  intros info_of meta1 meta2 m1 m2 held held1 held2
    Hcommit Hemit Hctx Hid1 Hid2 Hheld.
  assert (Hfresh : ∀ (h : gmap ref MetaMap) l, is_Some (h !! l) ->
            l ≠ fresh (dom h)).
  { intros h l Hl ->. apply (is_fresh (dom h)). by apply elem_of_dom. }
  (* the first change *)
  assert (Hm1 : heap m1 = <[held1 := <[SetChannelMeta.type meta1 := meta1]>
                                       oldMap]> (heap m)
                ∧ held1 = fresh (dom (heap m))).
  { subst m1 held1. unfold exec.
    rewrite (metaChange_run this _ _ _ Hid1). cbn [snd world heap].
    fold info_of. rewrite Hcommit, Hctx, Hemit. fold held.
    by rewrite Hheld. }
  destruct Hm1 as [Hheap1 Hnew1].
  assert (Hne1 : held ≠ held1) by (rewrite Hnew1; apply Hfresh; by eexists).
  (* the second change *)
  assert (Hm2 : heap m2 = <[held2 := <[SetChannelMeta.type meta2 := meta2]>
                             (<[SetChannelMeta.type meta1 := meta1]> oldMap)]>
                            (heap m1)
                ∧ held2 = fresh (dom (heap m1))).
  { subst m2 held2. unfold exec.
    rewrite (metaChange_run this _ _ _ Hid2). cbn [snd world heap].
    fold info_of. rewrite Hcommit, Hctx, Hemit. fold held1.
    by rewrite Hheap1, lookup_insert_eq. }
  destruct Hm2 as [Hheap2 Hnew2].
  assert (Hne2 : held1 ≠ held2).
  { rewrite Hnew2. apply Hfresh. rewrite Hheap1, lookup_insert_eq.
    by eexists. }
  assert (Hne3 : held ≠ held2).
  { rewrite Hnew2. apply Hfresh. rewrite Hheap1, lookup_insert_ne by done.
    by eexists. }
  rewrite Hheap2, Hheap1. split_and!; try done.
  - by rewrite lookup_insert_eq.
  - by rewrite lookup_insert_ne, lookup_insert_eq.
  - by rewrite !lookup_insert_ne.
Qed.

End handler_invariants.

(** * Further properties of [TalkChannelListHandler] *)

Section list_handler_invariants.
Import TalkChannelListHandler.
Context {T : Type} `{ExtendsChannel T} {W : Type}.
Variable this : t T W.
Implicit Types (m : State T W)
  (parentCtx : EventContext (ChannelListEvent T) W).


(** X12: a second [LEFT] push for the same id does nothing, when
    [removeChannel] makes the list store forget the conversation and the
    listeners leave the list store alone: the conversation is removed, and
    [channel_left] is emitted, once. *)
Theorem left_push_twice (data : DefaultRes) parentCtx m (channel : T) :
  let channelId := DefaultRes.chatId data in
  let m1 := exec (pushReceived this "LEFT" data parentCtx) m in
  get (_list this) channelId (world m) = Some channel ->
  (∀ w, get (_list this) channelId
          (removeChannel (_updater this) (asChannel channel) w).2 = None) ->
  (∀ e w, get (_list this) channelId (emit (_emitter this) e w)
          = get (_list this) channelId w) ->
  (∀ e w, get (_list this) channelId (ctx_emit parentCtx e w)
          = get (_list this) channelId w) ->
  exec (pushReceived this "LEFT" data parentCtx) m1 = m1
  ∧ ListTrace.emitted
      (new_calls m (exec (pushReceived this "LEFT" data parentCtx) m1))
    = [channel_left channel].
Proof.
  intros channelId m1 Hget Hgone Hemit Hctx.
  assert (Hlog1 := left_run this data parentCtx m channel Hget).
  cbv zeta in Hlog1. fold m1 in Hlog1.
  assert (Hnone : get (_list this) channelId (world m1) = None)
    by (rewrite Hlog1; cbn [world]; by rewrite Hctx, Hemit, Hgone).
  assert (Hsame : exec (pushReceived this "LEFT" data parentCtx) m1 = m1).
  { unfold exec, pushReceived. cbn [String.eqb Ascii.eqb Bool.eqb].
    unfold mbind, M_bind, read. fold channelId. by rewrite Hnone. }
  split; [done|]. rewrite Hsame, Hlog1.
  erewrite new_calls_app; [|reflexivity]. done.
Qed.

End list_handler_invariants.

Section routers.
Context `{Codec} {T : Type} `{ExtendsChannel T} {W V : Type}.
Variable channelHandler : TalkChannelHandler.t W.
Variable listHandler : TalkChannelListHandler.t T V.

(** X13: the tags are split between the two handlers: a push whose tag is
    not [LEFT] or [SYNCJOIN] leaves the machine of the list handler as it
    is, and a push whose tag is [LEFT] or [SYNCJOIN] leaves the machine of a
    channel handler as it is. *)
Theorem tags_are_split_between_the_handlers (method : string)
    (data : DefaultRes)
    (channelCtx : EventContext TalkChannelHandler.ChannelEvents W)
    (listCtx : EventContext (TalkChannelListHandler.ChannelListEvent T) V)
    (mc : TalkChannelHandler.State W)
    (ml : TalkChannelListHandler.State T V) :
  (method ∉ Observe.list_tags ->
   exec (TalkChannelListHandler.pushReceived listHandler method data listCtx)
        ml = ml)
  ∧ (method ∈ Observe.list_tags ->
     exec (TalkChannelHandler.pushReceived channelHandler method data
             channelCtx) mc = mc).
Proof.
  split.
  - intros Hnot. unfold exec, TalkChannelListHandler.pushReceived.
    repeat match goal with
    | |- context [String.eqb method ?tag] =>
      destruct (String.eqb_spec method tag) as [->|_];
        [exfalso; apply Hnot; unfold Observe.list_tags; set_solver|]
    end.
    done.
  - intros Hin. unfold Observe.list_tags in Hin.
    repeat (apply elem_of_cons in Hin as [->|Hin]);
      [..|by apply elem_of_nil in Hin]; reflexivity.
Qed.

End routers.

(** * Further properties of [TalkChannelList] *)

Section channel_list_invariants.
Import TalkChannelList.
Context {W : Type}.
Variable this : t W.
Implicit Types m : State W.

(** The run of [pushReceived]. *)
Lemma list_push_run (method : string) (data : DefaultRes) (parentCtx : ref)
    m :
  let ctx := fresh (dom (heap m)) in
  let w1 := normal_pushReceived (_normalList this) method data ctx (world m) in
  exec (pushReceived this method data parentCtx) m =
  mkMachine (<[ctx := new_EventContext (self this) (Some parentCtx)]> (heap m))
    (open_pushReceived (_openList this) method data ctx w1)
    (log m ++ [(NormalListPushReceived method data ctx, world m);
               (OpenListPushReceived method data ctx, w1)])
    (pending m).
Proof.
  intros ctx w1. unfold exec, pushReceived, mbind, M_bind, alloc, invoke.
  cbn. by rewrite <- app_assoc.
Qed.

(** X14: [get] changes nothing; it gives what the normal list holds for the
    id when the normal list holds something, what the open list holds
    otherwise, and nothing exactly when neither list holds the id. *)
Theorem get_prefers_the_normal_list (channelId : Long) m :
  let found := (get this channelId m).1 in
  let normal := normal_get (_normalList this) channelId (world m) in
  let open := open_get (_openList this) channelId (world m) in
  (get this channelId m).2 = m
  ∧ (is_Some normal -> found = normal)
  ∧ (normal = None -> found = open)
  ∧ (found = None ↔ normal = None ∧ open = None).
Proof.
  intros found normal open. subst found.
  unfold get, mbind, M_bind, read. cbn. fold normal.
  destruct normal as [channel|] eqn:Hn; cbn; fold open.
  - split_and!; [done|done|done|]. split; [done|]. by intros [? _].
  - split_and!; [done| |done|].
    + by intros [? ?].
    + split; [done|]. by intros [_ ?].
Qed.

(** X15: two pushes one after the other make two different contexts, each
    under the parent context of its push; the contexts and all the objects
    there were are in the heap afterwards, and each sub-list has received
    each push with the context of that push, the normal list first. *)
Theorem each_push_has_its_own_context (method1 method2 : string)
    (data1 data2 : DefaultRes) (parent1 parent2 : ref) m :
  let m1 := exec (pushReceived this method1 data1 parent1) m in
  let m2 := exec (pushReceived this method2 data2 parent2) m1 in
  let ctx1 := fresh (dom (heap m)) in
  let ctx2 := fresh (dom (heap m1)) in
  ctx1 ≠ ctx2
  ∧ heap m2 !! ctx1 = Some (new_EventContext (self this) (Some parent1))
  ∧ heap m2 !! ctx2 = Some (new_EventContext (self this) (Some parent2))
  ∧ (∀ l o, heap m !! l = Some o -> heap m2 !! l = Some o)
  ∧ new_calls m m2 =
      [NormalListPushReceived method1 data1 ctx1;
       OpenListPushReceived method1 data1 ctx1;
       NormalListPushReceived method2 data2 ctx2;
       OpenListPushReceived method2 data2 ctx2].
Proof.
  intros m1 m2 ctx1 ctx2.
  assert (H1 := list_push_run method1 data1 parent1 m).
  assert (H2 := list_push_run method2 data2 parent2 m1).
  cbv zeta in H1, H2. fold m1 in H1. fold m2 in H2. fold ctx1 in H1.
  fold ctx2 in H2.
  assert (Hfresh : ∀ (h : gmap ref EventContextObj) l, is_Some (h !! l) ->
            l ≠ fresh (dom h)).
  { intros h l Hl ->. apply (is_fresh (dom h)). by apply elem_of_dom. }
  assert (Hheap1 : heap m1 =
    <[ctx1 := new_EventContext (self this) (Some parent1)]> (heap m))
    by (by rewrite H1).
  assert (Hne : ctx1 ≠ ctx2).
  { apply Hfresh. rewrite Hheap1, lookup_insert_eq. by eexists. }
  split_and!.
  - done.
  - rewrite H2. cbn [heap]. rewrite lookup_insert_ne by done.
    by rewrite Hheap1, lookup_insert_eq.
  - rewrite H2. cbn [heap]. by rewrite lookup_insert_eq.
  - intros l o Hl. rewrite H2. cbn [heap].
    assert (l ≠ ctx1) by (apply Hfresh; by eexists).
    assert (l ≠ ctx2).
    { apply Hfresh. rewrite Hheap1, lookup_insert_ne by done. by eexists. }
    rewrite lookup_insert_ne by done.
    by rewrite Hheap1, lookup_insert_ne.
  - unfold new_calls, new_log. rewrite H2. cbn [log]. rewrite H1.
    cbn [log world]. by rewrite <- app_assoc, drop_app_length.
Qed.

End channel_list_invariants.

(** * Properties of [TalkChannelList.initialize] *)

Section initialize_runs.
Import TalkChannelListInitialize.
Context {W : Type}.
Variable statics : Statics W.
Implicit Types m : State W.

(** The loop of [partition], from any two arrays. *)
Lemma partition_from (normalList openList channelList : list Entry) :
  foldl (λ '(normalList, openList) channel,
           if has_linkId channel
           then (normalList, openList ++ [channel])
           else (normalList ++ [channel], openList))
        (normalList, openList) channelList
  = (normalList ++ filter (λ channel, ¬ has_linkId channel) channelList,
     openList ++ filter (λ channel, has_linkId channel) channelList).
Proof.
  revert normalList openList.
  induction channelList as [|channel rest IH]; intros normalList openList.
  - by rewrite !app_nil_r.
  - cbn [foldl]. destruct (has_linkId channel) eqn:Hlink; rewrite IH.
    + rewrite filter_cons_False, filter_cons_True, <- app_assoc; [done|..];
        rewrite Hlink; first [done | intros Hn; by apply Hn].
    + rewrite filter_cons_True, filter_cons_False, <- app_assoc; [done|..];
        rewrite Hlink; first [done | intros Hn; by apply Hn].
Qed.

(** X16: [initialize] calls the initialization of the normal list with the
    entries without a [linkId], in the world it is called in, and, once that
    initialization is fulfilled, the initialization of the open list with
    the entries with a [linkId], in the world the first call left; each list
    is in the order of the input, every entry goes to exactly one of the
    two, and an absent input is an empty one. *)
Theorem initialize_partitions_in_order (channelList : option (list Entry))
    m :
  let entries := default [] channelList in
  let normalList := filter (λ channel, ¬ has_linkId channel) entries in
  let openList := filter (λ channel, has_linkId channel) entries in
  let m1 := exec (initialize statics channelList) m in
  let m2 := exec (settle statics (await_normal openList) Fulfilled) m1 in
  new_log m m1 = [(NormalInitialize normalList, world m)]
  ∧ world m1 = normal_initialize statics normalList (world m)
  ∧ pending m1 = pending m ++ [await_normal openList]
  ∧ new_log m1 m2 = [(OpenInitialize openList, world m1)]
  ∧ world m2 = open_initialize statics openList (world m1)
  ∧ normalList ++ openList ≡ₚ entries
  ∧ (channelList = None -> normalList = [] ∧ openList = []).
Proof.
  intros entries normalList openList m1 m2.
  assert (Hpart : partition entries = (normalList, openList))
    by (unfold partition; by rewrite partition_from).
  assert (Hm1 : m1 =
    mkMachine (heap m) (normal_initialize statics normalList (world m))
      (log m ++ [(NormalInitialize normalList, world m)])
      (pending m ++ [await_normal openList])).
  { subst m1. unfold exec, initialize. fold entries. by rewrite Hpart. }
  split_and!.
  - rewrite Hm1. by apply new_log_app.
  - by rewrite Hm1.
  - by rewrite Hm1.
  - subst m2. by apply new_log_app.
  - done.
  - rewrite Permutation_app_comm. apply filter_app_complement.
  - by intros ->.
Qed.

(** X17: up to its first [await], [initialize] calls the initialization of
    the normal list and nothing else: the open list is not initialized and
    the function has not returned.  When the initialization of the normal
    list is rejected, [initialize] throws, the world is left as it is and
    the open list is never initialized.  When it is fulfilled, the open list
    is initialized, and only when that is fulfilled does [initialize]
    return, without any further call; when that is rejected, [initialize]
    throws. *)
Theorem initialize_awaits_in_sequence (channelList : option (list Entry))
    m :
  let entries := default [] channelList in
  let normalList := filter (λ channel, ¬ has_linkId channel) entries in
  let openList := filter (λ channel, has_linkId channel) entries in
  let m1 := exec (initialize statics channelList) m in
  let failed := exec (settle statics (await_normal openList) Rejected) m1 in
  let m2 := exec (settle statics (await_normal openList) Fulfilled) m1 in
  let failed2 := exec (settle statics await_open Rejected) m2 in
  let m3 := exec (settle statics await_open Fulfilled) m2 in
  (new_calls m m1 = [NormalInitialize normalList]
   ∧ pending m1 = pending m ++ [await_normal openList])
  ∧ (new_log m1 failed = [(Throw, world m1)]
     ∧ world failed = world m1 ∧ pending failed = pending m1)
  ∧ (new_log m1 m2 = [(OpenInitialize openList, world m1)]
     ∧ world m2 = open_initialize statics openList (world m1)
     ∧ pending m2 = pending m1 ++ [await_open])
  ∧ (new_log m2 failed2 = [(Throw, world m2)]
     ∧ world failed2 = world m2 ∧ pending failed2 = pending m2)
  ∧ (new_log m2 m3 = [(Return, world m2)]
     ∧ world m3 = world m2 ∧ pending m3 = pending m2)
  ∧ new_calls m failed = [NormalInitialize normalList; Throw]
  ∧ new_calls m failed2 =
      [NormalInitialize normalList; OpenInitialize openList; Throw]
  ∧ new_calls m m3 =
      [NormalInitialize normalList; OpenInitialize openList; Return].
Proof.
  intros entries normalList openList m1 failed m2 failed2 m3.
  assert (Hpart : partition entries = (normalList, openList))
    by (unfold partition; by rewrite partition_from).
  assert (Hm1 : m1 =
    mkMachine (heap m) (normal_initialize statics normalList (world m))
      (log m ++ [(NormalInitialize normalList, world m)])
      (pending m ++ [await_normal openList])).
  { subst m1. unfold exec, initialize. fold entries. by rewrite Hpart. }
  assert (Hlog : ∀ (a b : State W) seg,
            log b = log a ++ seg -> new_log a b = seg)
    by (intros; by apply new_log_app).
  split_and!.
  - by rewrite Hm1, new_calls_mk.
  - by rewrite Hm1.
  - by apply Hlog.
  - done.
  - done.
  - by apply Hlog.
  - done.
  - done.
  - by apply Hlog.
  - done.
  - done.
  - by apply Hlog.
  - done.
  - done.
  - subst failed. rewrite Hm1.
    unfold new_calls, new_log, exec, settle, conclude, invoke. cbn.
    by rewrite <- !app_assoc, drop_app_length.
  - subst failed2 m2. rewrite Hm1.
    unfold new_calls, new_log, exec, settle, conclude, invoke, mbind, M_bind,
      then_. cbn.
    by rewrite <- !app_assoc, drop_app_length.
  - subst m3 m2. rewrite Hm1.
    unfold new_calls, new_log, exec, settle, conclude, invoke, mbind, M_bind,
      then_. cbn.
    by rewrite <- !app_assoc, drop_app_length.
Qed.

End initialize_runs.

(** * The further properties on concrete pushes *)

Section more_in_memory.
Import TalkChannelHandler InMemory Samples.
#[local] Existing Instance codec.

(** [LEFT] is no tag of the channel handler. *)
Lemma unknown_tag_leaves_the_machine_witness :
  ("LEFT" ∉ Observe.channel_tags)
  ∧ exec (pushReceived handler "LEFT" push7 clientCtx) machine0 = machine0.
Proof.
  assert ("LEFT" ∉ Observe.channel_tags) as Hnot.
  { intros Hin. unfold Observe.channel_tags in Hin.
    repeat (apply elem_of_cons in Hin as [Heq|Hin]; [discriminate Heq|]).
    by apply elem_of_nil in Hin. }
  split; [exact Hnot|].
  exact (unknown_tag_leaves_the_machine (H:=codec) handler "LEFT" push7
           clientCtx machine0 Hnot).
Defined.

(** Every id of [push8] is 8; the handler is the one of channel 7. *)
Lemma push_for_another_channel_is_dropped_witness :
  DefaultRes.chatId push8 ≠ 7
  ∧ DefaultRes.c push8 ≠ 7
  ∧ ChatlogStruct.chatId (DefaultRes.chatLog push8) ≠ 7
  ∧ exec (pushReceived handler "DELMEM" push8 clientCtx) machine0 = machine0.
Proof.
  assert (Hne : (8 : Z) ≠ 7) by (intros Heq; discriminate Heq).
  split; [exact Hne|]. split; [exact Hne|]. split; [exact Hne|].
  exact (push_for_another_channel_is_dropped (H:=codec) handler "DELMEM"
           push8 clientCtx machine0 Hne Hne Hne).
Defined.

(** The map at reference 1 after a meta change and after a join. *)
Lemma objects_are_never_changed_witness :
  let oldMap : MetaMap := {[ 1 := notice; 3 := title ]} in
  let k := userJoin_then (structToChatlog (DefaultRes.chatLog push7))
                         clientCtx in
  heap machine0 !! 1%positive = Some oldMap
  ∧ heap (exec (pushReceived handler "CHGMETA" push7 clientCtx) machine0)
      !! 1%positive = Some oldMap
  ∧ heap (exec (settle handler k (Success 0 [alice; bob])) machine0)
      !! 1%positive = Some oldMap.
Proof.
  intros oldMap k.
  assert (Hl : heap machine0 !! 1%positive = Some oldMap) by reflexivity.
  split; [exact Hl|].
  destruct (objects_are_never_changed (H:=codec) handler 1%positive oldMap
              machine0 Hl) as [Hpush Hsettle].
  split.
  - exact (Hpush "CHGMETA" push7 clientCtx).
  - exact (Hsettle k (Success 0 [alice; bob])).
Defined.

(** A read receipt: the watermark update and the two emissions, one after
    the other from the world of the push, and no continuation. *)
Lemma a_push_does_bounded_work_witness :
  let m' := exec (pushReceived handler "DECUNREAD" push7 clientCtx) machine0 in
  let cs := new_calls machine0 m' in
  "DECUNREAD" ≠ "NEWMEM"
  ∧ new_log machine0 m' = Observe.replay handler clientCtx cs world0
  ∧ world m' =
      foldl (λ w c, Observe.effect handler clientCtx c w) world0 cs
  ∧ pending m' = pending machine0
  ∧ filter Observe.is_request cs = [].
Proof.
  intros m' cs.
  assert (Hne : "DECUNREAD" ≠ "NEWMEM") by (intros Heq; discriminate Heq).
  split; [exact Hne|].
  destruct (a_push_does_bounded_work (H:=codec) handler "DECUNREAD" push7
              clientCtx machine0) as (_ & Hlog & Hworld & Hnew).
  split; [exact Hlog|]. split; [exact Hworld|]. exact (Hnew Hne).
Defined.

(** The log of [pushOfText] has type 1. *)
Lemma join_push_needs_a_feed_log_witness :
  Chatlog.type (structToChatlog (DefaultRes.chatLog pushOfText)) ≠ 0
  ∧ exec (pushReceived handler "NEWMEM" pushOfText clientCtx) machine0
    = machine0.
Proof.
  assert (Hne : Chatlog.type (structToChatlog (DefaultRes.chatLog pushOfText))
                ≠ 0) by (intros Heq; discriminate Heq).
  split; [exact Hne|].
  exact (join_push_needs_a_feed_log (H:=codec) handler pushOfText clientCtx
           machine0 Hne).
Defined.

(** A message push on the machine of the examples and on the machine a meta
    change leaves. *)
Lemma calls_do_not_depend_on_the_store_witness :
  let m' := exec (pushReceived handler "CHGMETA" push7 clientCtx) machine0 in
  "MSG" ∈ ["MSG"; "FEED"; "NEWMEM"; "SYNCDLMSG"]
  ∧ new_calls machine0 (exec (pushReceived handler "MSG" push7 clientCtx)
                             machine0)
    = new_calls m' (exec (pushReceived handler "MSG" push7 clientCtx) m').
Proof.
  intros m'.
  assert (Hin : "MSG" ∈ ["MSG"; "FEED"; "NEWMEM"; "SYNCDLMSG"])
    by apply list_elem_of_here.
  split; [exact Hin|].
  exact (proj1 (calls_do_not_depend_on_the_store (H:=codec) handler "MSG"
                  push7 clientCtx machine0 m' Hin)).
Defined.

(** The title and then the notice are replaced: the store holds the map 3,
    the map 2 has the new title and the old notice. *)
Lemma meta_changes_accumulate_witness :
  let oldMap : MetaMap := {[ 1 := notice; 3 := title ]} in
  let m1 := exec (pushReceived handler "CHGMETA" push7 clientCtx) machine0 in
  let m2 := exec (pushReceived handler "CHGMETA" push7' clientCtx) m1 in
  let held := ChannelInfo.metaMap (info store (world machine0)) in
  let held1 := ChannelInfo.metaMap (info store (world m1)) in
  let held2 := ChannelInfo.metaMap (info store (world m2)) in
  (held = 1%positive ∧ held1 = 2%positive ∧ held2 = 3%positive)
  ∧ heap m2 !! held2 =
      Some (<[SetChannelMeta.type notice' := notice']>
              (<[SetChannelMeta.type title' := title']> oldMap))
  ∧ heap m2 !! held1 = Some (<[SetChannelMeta.type title' := title']> oldMap)
  ∧ heap m2 !! held = Some oldMap
  ∧ held ≠ held1 ∧ held1 ≠ held2 ∧ held ≠ held2.
Proof.
  intros oldMap m1 m2 held held1 held2.
  split; [by vm_compute|].
  assert (Hcommit : ∀ l w,
    ChannelInfo.metaMap
      (info store (updateInfo updater (PartialInfo.mk None None (Some l)) w))
    = l) by reflexivity.
  assert (Hemit : ∀ e w, info store (emit emitter e w) = info store w)
    by reflexivity.
  assert (Hctx : ∀ e w, info store (ctx_emit clientCtx e w) = info store w)
    by reflexivity.
  assert (Hheld : heap machine0 !! held = Some oldMap) by reflexivity.
  exact (meta_changes_accumulate (H:=codec) handler push7 push7' clientCtx
           machine0 oldMap Hcommit Hemit Hctx eq_refl eq_refl Hheld).
Defined.

End more_in_memory.

Section more_in_memory_list.
Import TalkChannelListHandler InMemoryList.

(** The updater of the examples removes the conversation: the second push
    finds nothing. *)
Lemma left_push_twice_witness :
  let m1 := exec (pushReceived handler "LEFT" InMemory.push7 clientCtx)
                 machine0 in
  get store 7 world0 = Some (Channel.mk 7)
  ∧ exec (pushReceived handler "LEFT" InMemory.push7 clientCtx) m1 = m1
  ∧ ListTrace.emitted
      (new_calls machine0
         (exec (pushReceived handler "LEFT" InMemory.push7 clientCtx) m1))
    = [channel_left (Channel.mk 7)].
Proof.
  intros m1. split; [reflexivity|].
  refine (left_push_twice handler InMemory.push7 clientCtx machine0
            (Channel.mk 7) eq_refl _ (λ _ _, eq_refl) (λ _ _, eq_refl)).
  intros w. exact (lookup_delete_eq (channelMap w) 7).
Defined.

(** [DELMEM] is for the channel handlers and [LEFT] for the list handler. *)
Lemma tags_are_split_between_the_handlers_witness :
  ("DELMEM" ∉ Observe.list_tags)
  ∧ "LEFT" ∈ Observe.list_tags
  ∧ exec (pushReceived handler "DELMEM" InMemory.push7 clientCtx) machine0
    = machine0
  ∧ exec (TalkChannelHandler.pushReceived (H:=InMemory.codec)
            InMemory.handler "LEFT" InMemory.push7 InMemory.clientCtx)
         InMemory.machine0
    = InMemory.machine0.
Proof.
  assert ("DELMEM" ∉ Observe.list_tags) as Hnot.
  { intros Hin. unfold Observe.list_tags in Hin.
    repeat (apply elem_of_cons in Hin as [Heq|Hin]; [discriminate Heq|]).
    by apply elem_of_nil in Hin. }
  assert (Hin : "LEFT" ∈ Observe.list_tags) by apply list_elem_of_here.
  split; [exact Hnot|]. split; [exact Hin|]. split.
  - exact (proj1 (tags_are_split_between_the_handlers (H:=InMemory.codec)
                    InMemory.handler handler "DELMEM" InMemory.push7
                    InMemory.clientCtx clientCtx InMemory.machine0 machine0)
             Hnot).
  - exact (proj2 (tags_are_split_between_the_handlers (H:=InMemory.codec)
                    InMemory.handler handler "LEFT" InMemory.push7
                    InMemory.clientCtx clientCtx InMemory.machine0 machine0)
             Hin).
Defined.

End more_in_memory_list.

Section more_in_memory_registry.
Import TalkChannelList InMemoryRegistry Samples.

(** The normal list holds channel 7, the open list channel 8, no list
    channel 9. *)
Lemma get_prefers_the_normal_list_witness :
  (get twoLists 7 machine0).1 = Some (Channel.mk 7)
  ∧ (get twoLists 8 machine0).1 = Some (Channel.mk 8)
  ∧ (get twoLists 9 machine0).1 = None.
Proof.
  destruct (get_prefers_the_normal_list twoLists 7 machine0)
    as (_ & H7 & _).
  destruct (get_prefers_the_normal_list twoLists 8 machine0)
    as (_ & _ & H8 & _).
  destruct (get_prefers_the_normal_list twoLists 9 machine0)
    as (_ & _ & _ & H9).
  split; [exact (H7 (mk_is_Some _ _ eq_refl))|].
  split; [exact (H8 eq_refl)|].
  exact (proj2 H9 (conj eq_refl eq_refl)).
Defined.

End more_in_memory_registry.

Section more_in_memory_initialize.
Import TalkChannelListInitialize Samples.

(** Four entries, the second and the fourth with a [linkId]: each sub-list
    has noted its own two, in order. *)
Lemma initialize_partitions_in_order_witness :
  let normalList := [mkEntry 1 None; mkEntry 3 None] in
  let openList := [mkEntry 2 (Some 20); mkEntry 4 (Some 40)] in
  let m1 := exec (initialize statics (Some entries)) initMachine in
  let m2 := exec (settle statics (await_normal openList) Fulfilled) m1 in
  new_log initMachine m1 =
    [(NormalInitialize normalList, mkInitWorld None None)]
  ∧ world m1 = mkInitWorld (Some normalList) None
  ∧ new_log m1 m2 =
      [(OpenInitialize openList, mkInitWorld (Some normalList) None)]
  ∧ world m2 = mkInitWorld (Some normalList) (Some openList)
  ∧ world (exec (initialize statics None) initMachine)
    = mkInitWorld (Some []) None.
Proof.
  intros normalList openList m1 m2.
  destruct (initialize_partitions_in_order statics (Some entries) initMachine)
    as (Hnormal & Hworld1 & _ & Hopen & Hworld2 & _).
  destruct (initialize_partitions_in_order statics None initMachine)
    as (_ & Hnone & _).
  split; [exact Hnormal|]. split; [exact Hworld1|].
  split; [exact Hopen|]. split; [exact Hworld2|]. exact Hnone.
Defined.

(** The same entries: the calls when both initializations are fulfilled, and
    when the first is rejected, which leaves the open list as it was. *)
Lemma initialize_awaits_in_sequence_witness :
  let normalList := [mkEntry 1 None; mkEntry 3 None] in
  let openList := [mkEntry 2 (Some 20); mkEntry 4 (Some 40)] in
  let m1 := exec (initialize statics (Some entries)) initMachine in
  let failed := exec (settle statics (await_normal openList) Rejected) m1 in
  let m2 := exec (settle statics (await_normal openList) Fulfilled) m1 in
  let m3 := exec (settle statics await_open Fulfilled) m2 in
  new_calls initMachine m1 = [NormalInitialize normalList]
  ∧ new_calls initMachine failed = [NormalInitialize normalList; Throw]
  ∧ world failed = world m1
  ∧ new_calls initMachine m3 =
      [NormalInitialize normalList; OpenInitialize openList; Return]
  ∧ world m3 = world m2.
Proof.
  intros normalList openList m1 failed m2 m3.
  destruct (initialize_awaits_in_sequence statics (Some entries) initMachine)
    as ((Hfirst & _) & (_ & Hworld & _) & _ & _ & (_ & Hworld3 & _)
        & Hfailed & _ & Hall).
  split; [exact Hfirst|]. split; [exact Hfailed|]. split; [exact Hworld|].
  split; [exact Hall|]. exact Hworld3.
Defined.

End more_in_memory_initialize.
